(** * bdns: the node coordination layer (internal/network/node.go)

    A shallow embedding of the Node type and of its methods: the gossip
    dispatch loop, the direct-stream callback for "/dns-response", the DNS
    request and response handlers, the epoch-randomness handler and the
    local broadcast operations.

    Methods run in a small monad that threads the node, the state of the
    external collaborators (entropy source, consensus scheme) and a
    chronological log of effects.  Each logged effect is paired with the
    node as it was when the effect happened, so that "before" and "after"
    can be read off the log. *)

From Stdlib Require Import Strings.Byte Strings.Ascii Strings.String.
From stdpp Require Import gmap strings list fin_maps.

Open Scope string_scope.
Open Scope Z_scope.
Open Scope list_scope.

(** ** Plain data *)

(** Go's []byte. *)
Definition bytes := list byte.

(** encoding/hex: lower-case, two digits per byte, high nibble first. *)
Definition hextable : list ascii :=
  ["0"; "1"; "2"; "3"; "4"; "5"; "6"; "7"; "8"; "9"; "a"; "b"; "c"; "d"; "e"; "f"]%char.

Definition hexdigit (n : N) : ascii :=
  nth (N.to_nat n) hextable "0"%char.

Fixpoint hex_EncodeToString (src : bytes) : string :=
  match src with
  | [] => EmptyString
  | b :: rest =>
      String (hexdigit (N.shiftr (Byte.to_N b) 4))
        (String (hexdigit (N.land (Byte.to_N b) 15)) (hex_EncodeToString rest))
  end.

(** The inverse table, used only to show that the encoding loses nothing. *)
Definition unhexdigit (c : ascii) : option N :=
  let k := N_of_ascii c in
  if (48 <=? k)%N && (k <=? 57)%N then Some (k - 48)%N
  else if (97 <=? k)%N && (k <=? 102)%N then Some (k - 87)%N
  else None.

Fixpoint hex_DecodeString (s : string) : option bytes :=
  match s with
  | EmptyString => Some []
  | String hi (String lo rest) =>
      match unhexdigit hi, unhexdigit lo, hex_DecodeString rest with
      | Some h, Some l, Some bs =>
          match Byte.of_N (h * 16 + l) with
          | Some b => Some (b :: bs)
          | None => None
          end
      | _, _, _ => None
      end
  | String _ EmptyString => None
  end.

(** fmt.Sprintln on string operands: a space between any two operands and
    a newline at the end. *)
Definition newline : string := String (ascii_of_nat 10) EmptyString.

Definition fmt_Sprintln (args : list string) : string :=
  String.append (String.concat " " args) newline.

(** consensus.SecretValues: the pair a participant reveals. *)
Record SecretValues := mkSecretValues {
  SecretValue : Z;
  RandomValue : Z
}.

Definition SecretValues_zero : SecretValues := mkSecretValues 0 0.

(** blockchain.KeyPair, as far as node.go reads it. *)
Record KeyPair := mkKeyPair {
  PublicKey : bytes;
  PrivateKey : bytes
}.

(** blockchain.Transaction, with the fields node.go reads. *)
Record Transaction := mkTransaction {
  tx_Timestamp : Z;
  tx_DomainName : string;
  tx_IP : string;
  tx_TTL : Z;
  tx_OwnerKey : bytes;
  tx_Signature : bytes
}.

Record BDNSRequest := mkBDNSRequest {
  req_DomainName : string
}.

Record BDNSResponse := mkBDNSResponse {
  res_Timestamp : Z;
  res_DomainName : string;
  res_IP : string;
  res_TTL : Z;
  res_OwnerKey : bytes;
  res_Signature : bytes
}.

Record RandomNumberMsg := mkRandomNumberMsg {
  rn_Epoch : Z;
  rn_SecretValue : Z;
  rn_RandomValue : Z;
  rn_Sender : bytes
}.

Record NodeConfig := mkNodeConfig {
  InitialTimestamp : Z;
  EpochInterval : Z;
  Seed : Z  (* the float64, as its bit pattern; no method here reads it *)
}.

(** Modelled from the spec: the MessageType constants are declared in a
    file of package network that is not part of the sources; the spec lists
    DNSRequest, DNSResponse, Transaction, Block and RandomNumber.
    [MsgOtherType] stands for every other value of the underlying integer
    (the switch of HandleGossip has no default case). *)
Inductive MessageType :=
  | DNSRequest
  | DNSResponse
  | MsgTransaction
  | MsgBlock
  | MsgRandomNumber
  | MsgOtherType (tag : Z).

Definition MessageType_eqb (a b : MessageType) : bool :=
  match a, b with
  | DNSRequest, DNSRequest => true
  | DNSResponse, DNSResponse => true
  | MsgTransaction, MsgTransaction => true
  | MsgBlock, MsgBlock => true
  | MsgRandomNumber, MsgRandomNumber => true
  | MsgOtherType x, MsgOtherType y => Z.eqb x y
  | _, _ => false
  end.

(** The envelope of every gossip and direct message. *)
Record GossipMessage := mkGossipMessage {
  msg_Type : MessageType;
  msg_Content : bytes;
  msg_Sender : string
}.

(** A Go map may be nil; [None] is the nil map. *)
Definition EpochTable := option (gmap Z (option (gmap string SecretValues))).

(** Node, without the transport handle and the mutexes (lock and unlock
    are logged as effects). *)
Record Node := mkNode {
  Address : string;
  Port : Z;
  Config : NodeConfig;
  NodeKeyPair : KeyPair;
  RegistryKeys : list bytes;
  SlotLeaders : gmap Z bytes;
  TransactionPool : gmap Z Transaction;
  IndexManager : gmap string Transaction;
  Blockchain : option Z;
  RandomNumber : bytes;
  EpochRandoms : EpochTable
}.

Inductive Mutex := SlotMutex | TxMutex | BcMutex | RandomMutex.

(** Reading n.EpochRandoms[epoch]: nil when the outer map is nil, when the
    key is absent, or when a nil map is stored there. *)
Definition epochRow (t : EpochTable) (epoch : Z) : option (gmap string SecretValues) :=
  match t with
  | None => None
  | Some outer => default None (outer !! epoch)
  end.

(** Reading v, ok := n.EpochRandoms[epoch][sender]. *)
Definition epochCell (t : EpochTable) (epoch : Z) (sender : string) : option SecretValues :=
  match epochRow t epoch with
  | None => None
  | Some row => row !! sender
  end.

(** ** External collaborators

    encoding/json, math/rand, package consensus and the Block type of
    package blockchain are not part of node.go.  They are taken as
    parameters: every theorem below holds for whatever they do.

    A decoder returns the variable it was given to fill (declared just
    before the call, so the zero value, possibly partly filled) together
    with the error, if any. *)
Class Externals := {
  Block : Type;
  ExtState : Type;
  json_Unmarshal_BDNSRequest : bytes -> BDNSRequest * option string;
  json_Unmarshal_Transaction : bytes -> Transaction * option string;
  json_Unmarshal_Block : bytes -> Block * option string;
  json_Unmarshal_RandomNumberMsg : bytes -> RandomNumberMsg * option string;
  json_Unmarshal_BDNSResponse : bytes -> BDNSResponse * option string;
  json_Decode_GossipMessage : bytes -> GossipMessage * option string;
  (* rand.Read: the bytes written into the buffer, and the error *)
  rand_Read : nat -> ExtState -> bytes * option string * ExtState;
  (* consensus.CommitmentPhase: the second component of its result *)
  consensus_CommitmentPhase : list bytes -> ExtState -> gmap string SecretValues * ExtState;
  (* the index under which AddTransaction files a transaction *)
  poolIndex : Transaction -> gmap Z Transaction -> Z
}.

Section Model.
Context {ext : Externals}.

(** What is handed to BroadcastMessage and DirectMessage. *)
Inductive Payload :=
  | PRequest (req : BDNSRequest)
  | PResponse (res : BDNSResponse)
  | PTransaction (tx : Transaction)
  | PRandomNumber (m : RandomNumberMsg).

(** Effects visible outside the node. *)
Inductive Effect :=
  | EvLock (m : Mutex)
  | EvUnlock (m : Mutex)
  | EvLog (line : string)                       (* package log *)
  | EvStdout (line : string)                    (* fmt.Println *)
  | EvBroadcast (t : MessageType) (p : Payload) (* P2PNetwork.BroadcastMessage *)
  | EvDirect (t : MessageType) (p : Payload) (dest : string) (* P2PNetwork.DirectMessage *)
  | EvStreamWrite (data : bytes)                (* a reply on an inbound stream *)
  | EvStreamClose
  | EvCommitmentPhase (keys : list bytes)       (* call into package consensus *)
  | EvLedgerAddTransaction (tx : Transaction)
  | EvLedgerAddBlock (b : Block).

Record State := mkState {
  node : Node;
  extst : ExtState
}.

Inductive Outcome (A : Type) :=
  | Done (a : A)
  | Panicked (msg : string).

Record Result (A : Type) := mkResult {
  outcome : Outcome A;
  final : State;
  events : list (Effect * Node)
}.

Definition M (A : Type) : Type := State -> Result A.

Definition ret {A} (a : A) : M A :=
  fun s => mkResult A (Done A a) s [].

Definition bind {A B} (m : M A) (f : A -> M B) : M B :=
  fun s =>
    let r := m s in
    match outcome A r with
    | Done _ a =>
        let r' := f a (final A r) in
        mkResult B (outcome B r') (final B r') (events A r ++ events B r')
    | Panicked _ msg => mkResult B (Panicked B msg) (final A r) (events A r)
    end.

Definition emit (e : Effect) : M unit :=
  fun s => mkResult unit (Done unit tt) s [(e, node s)].

Definition panic {A} (msg : string) : M A :=
  fun s => mkResult A (Panicked A msg) s [].

Definition getNode : M Node :=
  fun s => mkResult Node (Done Node (node s)) s [].

Definition modifyNode (f : Node -> Node) : M unit :=
  fun s => mkResult unit (Done unit tt) (mkState (f (node s)) (extst s)) [].

Definition callExt {A} (f : ExtState -> A * ExtState) : M A :=
  fun s => mkResult A (Done A (fst (f (extst s)))) (mkState (node s) (snd (f (extst s)))) [].

(** defer: [cleanup] runs when [body] returns and also when it panics. *)
Definition defer {A} (cleanup : M unit) (body : M A) : M A :=
  fun s =>
    let r := body s in
    let c := cleanup (final A r) in
    mkResult A (outcome A r) (final unit c) (events A r ++ events unit c).

End Model.

Arguments Done {A} a.
Arguments Panicked {A} msg.
Arguments outcome {ext A} r.
Arguments final {ext A} r.
Arguments events {ext A} r.
Arguments mkResult {ext A} outcome final events.

Declare Scope go_scope.
Delimit Scope go_scope with go.
Notation "x <- c1 ;; c2" := (bind c1 (fun x => c2))
  (at level 100, c1 at next level, right associativity) : go_scope.
Notation "c1 ;; c2" := (bind c1 (fun _ => c2))
  (at level 100, right associativity) : go_scope.
Open Scope go_scope.

(** The effects of a run, without the snapshots. *)
Definition effects {ext : Externals} {A} (r : Result A) : list Effect :=
  map fst (events r).

(** ** Field updates *)

Definition set_TransactionPool (p : gmap Z Transaction) (n : Node) : Node :=
  mkNode (Address n) (Port n) (Config n) (NodeKeyPair n) (RegistryKeys n)
    (SlotLeaders n) p (IndexManager n) (Blockchain n) (RandomNumber n)
    (EpochRandoms n).

Definition set_RandomNumber (b : bytes) (n : Node) : Node :=
  mkNode (Address n) (Port n) (Config n) (NodeKeyPair n) (RegistryKeys n)
    (SlotLeaders n) (TransactionPool n) (IndexManager n) (Blockchain n) b
    (EpochRandoms n).

Definition set_EpochRandoms (t : EpochTable) (n : Node) : Node :=
  mkNode (Address n) (Port n) (Config n) (NodeKeyPair n) (RegistryKeys n)
    (SlotLeaders n) (TransactionPool n) (IndexManager n) (Blockchain n)
    (RandomNumber n) t.

(** The node literal of NewNode: every map made empty, no blockchain yet.
    The address comes from the transport and the key pair from package
    blockchain. *)
Definition NewNode (addr : string) (kp : KeyPair) : Node :=
  mkNode addr 0 (mkNodeConfig 0 0 0) kp [] ∅ ∅ ∅ None [] (Some ∅).

(** ** Methods of Node *)

Section Methods.
Context {ext : Externals}.

(** log.Println *)
Definition log_Println (args : list string) : M unit :=
  emit (EvLog (fmt_Sprintln args)).

(** log.Panic: fmt.Sprint puts no space next to a string operand. *)
Definition log_Panic {A} (args : list string) : M A :=
  let s := String.concat EmptyString args in
  emit (EvLog s) ;; panic s.

(** fmt.Println *)
Definition fmt_Println (args : list string) : M unit :=
  emit (EvStdout (fmt_Sprintln args)).

(** Modelled from the spec: AddTransaction is a method of Node declared in
    a file that is not part of the sources.  Spec 4.4: "insert into the
    guarded transaction pool under a locally assigned index, and forward to
    Ledger". *)
Definition AddTransaction (tx : Transaction) : M unit :=
  emit (EvLock TxMutex) ;;
  defer (emit (EvUnlock TxMutex))
    (modifyNode (fun n =>
       set_TransactionPool
         (<[poolIndex tx (TransactionPool n) := tx]> (TransactionPool n)) n) ;;
     emit (EvLedgerAddTransaction tx)).

(** Modelled from the spec: AddBlock is a method of Node declared in a file
    that is not part of the sources.  Spec 4.4: "forward to Ledger for
    chain extension under its own guard". *)
Definition AddBlock (b : Block) : M unit :=
  emit (EvLock BcMutex) ;;
  defer (emit (EvUnlock BcMutex))
    (emit (EvLedgerAddBlock b)).

(** make([]byte, n) followed by a Read that wrote [written]. *)
Definition overwrite (buf written : bytes) : bytes :=
  take (length buf) written ++ drop (length written) buf.

Definition GenerateRandomNumber : M bytes :=
  emit (EvLock RandomMutex) ;;
  defer (emit (EvUnlock RandomMutex))
    (written_err <- callExt (rand_Read 32) ;;
     let randomBytes := overwrite (repeat x00 32) (fst written_err) in
     match snd written_err with
     | Some err => log_Panic ["Failed to generate random number:"; err]
     | None => ret tt
     end ;;
     modifyNode (set_RandomNumber randomBytes) ;;
     ret randomBytes).

(** n.EpochRandoms[epoch] = make(map[string]consensus.SecretValues);
    assigning into a nil map panics. *)
Definition assignRow (epoch : Z) (row : gmap string SecretValues) : M unit :=
  n <- getNode ;;
  match EpochRandoms n with
  | None => panic "assignment to entry in nil map"
  | Some outer => modifyNode (set_EpochRandoms (Some (<[epoch := Some row]> outer)))
  end.

(** n.EpochRandoms[epoch][sender] = v: the row is read, then written in
    place.  Rows are only ever created by [assignRow], one per epoch, so
    no two epochs share a row. *)
Definition assignCell (epoch : Z) (sender : string) (v : SecretValues) : M unit :=
  n <- getNode ;;
  match EpochRandoms n, epochRow (EpochRandoms n) epoch with
  | Some outer, Some row =>
      modifyNode (set_EpochRandoms (Some (<[epoch := Some (<[sender := v]> row)]> outer)))
  | _, _ => panic "assignment to entry in nil map"
  end.

Definition RandomNumberHandler (epoch : Z) (sender : string)
    (secretValue randomValue : Z) : M unit :=
  emit (EvLock RandomMutex) ;;
  defer (emit (EvUnlock RandomMutex))
    (n <- getNode ;;
     match EpochRandoms n with
     | None => modifyNode (set_EpochRandoms (Some ∅))
     | Some _ => ret tt
     end ;;
     n <- getNode ;;
     match epochRow (EpochRandoms n) epoch with
     | None => assignRow epoch ∅
     | Some _ => ret tt
     end ;;
     assignCell epoch sender (mkSecretValues secretValue randomValue)).

Definition DNSResponseHandler (res : BDNSResponse) : M unit :=
  n <- getNode ;;
  fmt_Println ["DNS Response received at "; Address n; " -> ";
               res_DomainName res; " IP:"; res_IP res].

(** Modelled from the spec: IndexManager.GetIP belongs to package index;
    spec 6 gives the contract GetRecord(domain) -> record|absent, here a
    lookup in a finite map. *)
Definition GetIP (im : gmap string Transaction) (domain : string) : option Transaction :=
  im !! domain.

Definition DNSRequestHandler (req : BDNSRequest) (reqSender : string) : M unit :=
  emit (EvLock TxMutex) ;;
  defer (emit (EvUnlock TxMutex))
    (n <- getNode ;;
     match GetIP (IndexManager n) (req_DomainName req) with
     | Some tx =>
         let res := mkBDNSResponse (tx_Timestamp tx) (tx_DomainName tx) (tx_IP tx)
                      (tx_TTL tx) (tx_OwnerKey tx) (tx_Signature tx) in
         emit (EvDirect DNSResponse (PResponse res) reqSender)
     | None => ret tt
     end ;;
     fmt_Println ["DNS Request received at "; Address n; " -> "; req_DomainName req]).

(** One turn of the loop of HandleGossip. *)
Definition HandleGossip_body (msg : GossipMessage) : M unit :=
  match msg_Type msg with
  | DNSRequest =>
      let req_err := json_Unmarshal_BDNSRequest (msg_Content msg) in
      match snd req_err with
      | Some _ => log_Println ["Failed during unmarshalling"]
      | None => ret tt
      end ;;
      DNSRequestHandler (fst req_err) (msg_Sender msg)
  | MsgTransaction =>
      let tx_err := json_Unmarshal_Transaction (msg_Content msg) in
      match snd tx_err with
      | Some _ => log_Println ["Failed during unmarshalling"]
      | None => ret tt
      end ;;
      AddTransaction (fst tx_err)
  | MsgBlock =>
      let block_err := json_Unmarshal_Block (msg_Content msg) in
      match snd block_err with
      | Some _ => log_Println ["Failed during unmarshalling"]
      | None => ret tt
      end ;;
      AddBlock (fst block_err)
  | MsgRandomNumber =>
      let randomMsg_err := json_Unmarshal_RandomNumberMsg (msg_Content msg) in
      let randomMsg := fst randomMsg_err in
      match snd randomMsg_err with
      | Some err =>
          log_Println ["Failed to unmarshal random number message:"; err]
          (* continue *)
      | None =>
          RandomNumberHandler (rn_Epoch randomMsg)
            (hex_EncodeToString (rn_Sender randomMsg))
            (rn_SecretValue randomMsg) (rn_RandomValue randomMsg)
      end
  | _ => ret tt
  end.

(** for msg := range n.P2PNetwork.MsgChan: [chan] is what the channel
    delivers before it is closed. *)
Fixpoint HandleGossip_loop (chan : list GossipMessage) : M unit :=
  match chan with
  | [] => ret tt
  | msg :: rest => HandleGossip_body msg ;; HandleGossip_loop rest
  end.

Definition HandleGossip (chan : list GossipMessage) : M unit :=
  HandleGossip_loop chan ;;
  n <- getNode ;;
  fmt_Println ["Exiting gossip listener for "; Address n].

(** The callback set for "/dns-response"; [s] is what the stream carries. *)
Definition dnsResponseStream (s : bytes) : M unit :=
  defer (emit EvStreamClose)
    (let response_err := json_Decode_GossipMessage s in
     let response := fst response_err in
     match snd response_err with
     | Some err => log_Println ["Error decoding direct response:"; err]
     | None =>
         if negb (MessageType_eqb (msg_Type response) DNSResponse)
         then log_Println ["Invalid message type received"]
         else
           let res_err := json_Unmarshal_BDNSResponse (msg_Content response) in
           match snd res_err with
           | Some _ => log_Println ["Failed during unmarshalling"]
           | None => ret tt
           end ;;
           DNSResponseHandler (fst res_err)
     end).

(** ListenForDirectMessages: the stream handlers it sets, by protocol id. *)
Definition ListenForDirectMessages : list (string * (bytes -> M unit)) :=
  [("/dns-response", dnsResponseStream)].

(** The transport runs the callback set for the protocol id of an inbound
    stream. *)
Fixpoint streamHandler (table : list (string * (bytes -> M unit)))
    (proto : string) : option (bytes -> M unit) :=
  match table with
  | [] => None
  | (p, h) :: rest => if String.eqb p proto then Some h else streamHandler rest proto
  end.

Definition BroadcastTransaction (tx : Transaction) : M unit :=
  AddTransaction tx ;;
  emit (EvBroadcast MsgTransaction (PTransaction tx)).

Definition MakeDNSRequest (domainName : string) : M unit :=
  let req := mkBDNSRequest domainName in
  emit (EvBroadcast DNSRequest (PRequest req)).

Definition BroadcastRandomNumber (epoch : Z) (registryKeys : list bytes) : M unit :=
  n <- getNode ;;
  emit (EvCommitmentPhase (RegistryKeys n)) ;;
  secretValues <- callExt (consensus_CommitmentPhase (RegistryKeys n)) ;;
  let self := hex_EncodeToString (PublicKey (NodeKeyPair n)) in
  let nodeSecretValues := default SecretValues_zero (secretValues !! self) in
  let msg := mkRandomNumberMsg epoch (SecretValue nodeSecretValues)
               (RandomValue nodeSecretValues) (PublicKey (NodeKeyPair n)) in
  RandomNumberHandler epoch self (SecretValue nodeSecretValues)
    (RandomValue nodeSecretValues) ;;
  emit (EvBroadcast MsgRandomNumber (PRandomNumber msg)).

End Methods.

(** ** Derived notions used to state the properties *)

(** What one call of RandomNumberHandler leaves in the table, in closed
    form ([RandomNumberHandler_run] below proves it from the code). *)
Definition upsert (epoch : Z) (sender : string) (v : SecretValues)
    (t : EpochTable) : EpochTable :=
  Some (<[epoch := Some (<[sender := v]> (default ∅ (epochRow t epoch)))]> (default ∅ t)).

(** Effects that put something on the network. *)
Definition is_send {ext : Externals} (e : Effect) : bool :=
  match e with
  | EvBroadcast _ _ | EvDirect _ _ _ | EvStreamWrite _ => true
  | _ => false
  end.

Definition sends {ext : Externals} {A} (r : Result A) : list Effect :=
  List.filter is_send (effects r).

(** A decoded contribution handed to the handler, as the MsgRandomNumber
    case of HandleGossip does. *)
Definition applyContribution {ext : Externals} (m : RandomNumberMsg) : M unit :=
  RandomNumberHandler (rn_Epoch m) (hex_EncodeToString (rn_Sender m))
    (rn_SecretValue m) (rn_RandomValue m).

Fixpoint applyContributions {ext : Externals} (l : list RandomNumberMsg) : M unit :=
  match l with
  | [] => ret tt
  | m :: rest => applyContribution m ;; applyContributions rest
  end.

(** The row a list of contributions describes: participant id to values. *)
Definition contributionCell (m : RandomNumberMsg) : string * SecretValues :=
  (hex_EncodeToString (rn_Sender m),
   mkSecretValues (rn_SecretValue m) (rn_RandomValue m)).

Definition contributionRow (l : list RandomNumberMsg) : gmap string SecretValues :=
  list_to_map (contributionCell <$> l).

(** The table after a list of contributions, in closed form. *)
Definition upsertAll (l : list RandomNumberMsg) (t : EpochTable) : EpochTable :=
  foldl (fun t m => upsert (rn_Epoch m) (contributionCell m).1 (contributionCell m).2 t) t l.

(** ** A concrete choice of the collaborators, to run the model

    The codec below is not JSON.  Like encoding/json filling a struct, it
    rejects the empty input and any input that is not an object (one that
    does not start with an opening brace); what follows the brace is read
    in a fixed layout.  The entropy source either fails or hands out its
    stock of bytes; the commitment phase hands every registry key the
    values 11 and 22 scaled by its position. *)
Module Sample.

Definition eof : string := "unexpected end of JSON input".
Definition notObject : string := "json: cannot unmarshal string into Go value".

Definition zbyte (b : byte) : Z := Z.of_N (Byte.to_N b).

Definition object {A} (zero : A) (fields : bytes -> A * option string)
    (c : bytes) : A * option string :=
  match c with
  | [] => (zero, Some eof)
  | b :: body => if N.eqb (Byte.to_N b) 123 then fields body else (zero, Some notObject)
  end.

Definition decodeRequest : bytes -> BDNSRequest * option string :=
  object (mkBDNSRequest EmptyString)
    (fun body => (mkBDNSRequest (string_of_list_byte body), None)).

Definition zeroTransaction : Transaction := mkTransaction 0 EmptyString EmptyString 0 [] [].

Definition decodeTransaction : bytes -> Transaction * option string :=
  object zeroTransaction
    (fun body =>
       match body with
       | [] => (zeroTransaction, Some eof)
       | ttl :: name =>
           (mkTransaction 0 (string_of_list_byte name) "10.0.0.1" (zbyte ttl) [] [], None)
       end).

Definition decodeBlock : bytes -> bytes * option string :=
  object [] (fun body => (body, None)).

Definition decodeRandomNumberMsg : bytes -> RandomNumberMsg * option string :=
  object (mkRandomNumberMsg 0 0 0 [])
    (fun body =>
       match body with
       | [] => (mkRandomNumberMsg 0 0 0 [], Some eof)
       | [e] => (mkRandomNumberMsg (zbyte e) 0 0 [], Some eof)
       | [e; s] => (mkRandomNumberMsg (zbyte e) (zbyte s) 0 [], Some eof)
       | e :: s :: r :: sender =>
           (mkRandomNumberMsg (zbyte e) (zbyte s) (zbyte r) sender, None)
       end).

Definition zeroResponse : BDNSResponse := mkBDNSResponse 0 EmptyString EmptyString 0 [] [].

Definition decodeResponse : bytes -> BDNSResponse * option string :=
  object zeroResponse
    (fun body =>
       match body with
       | [] => (zeroResponse, Some eof)
       | ttl :: name =>
           (mkBDNSResponse 0 (string_of_list_byte name) "10.0.0.1" (zbyte ttl) [] [], None)
       end).

Definition typeOfTag (b : byte) : MessageType :=
  match Byte.to_N b with
  | 0%N => DNSRequest
  | 1%N => DNSResponse
  | 2%N => MsgTransaction
  | 3%N => MsgBlock
  | 4%N => MsgRandomNumber
  | k => MsgOtherType (Z.of_N k)
  end.

Definition decodeEnvelope : bytes -> GossipMessage * option string :=
  object (mkGossipMessage DNSRequest [] EmptyString)
    (fun body =>
       match body with
       | [] => (mkGossipMessage DNSRequest [] EmptyString, Some eof)
       | tag :: content => (mkGossipMessage (typeOfTag tag) content "peer-B", None)
       end).

Record Collaborators := mkCollaborators {
  entropy : option bytes;   (* None: the source fails *)
  calls : nat               (* commitment phases run so far *)
}.

Definition readEntropy (n : nat) (c : Collaborators) : bytes * option string * Collaborators :=
  match entropy c with
  | None => ([], Some "entropy source unavailable", c)
  | Some stock => (take n stock, None, c)
  end.

Fixpoint commitments (keys : list bytes) (i : Z) : list (string * SecretValues) :=
  match keys with
  | [] => []
  | k :: rest => (hex_EncodeToString k, mkSecretValues (11 * i) (22 * i)) :: commitments rest (i + 1)
  end.

Definition commitmentPhase (keys : list bytes) (c : Collaborators)
    : gmap string SecretValues * Collaborators :=
  (list_to_map (commitments keys (1 + Z.of_nat (calls c))),
   mkCollaborators (entropy c) (S (calls c))).

#[export] Instance externals : Externals := {|
  Block := bytes;
  ExtState := Collaborators;
  json_Unmarshal_BDNSRequest := decodeRequest;
  json_Unmarshal_Transaction := decodeTransaction;
  json_Unmarshal_Block := decodeBlock;
  json_Unmarshal_RandomNumberMsg := decodeRandomNumberMsg;
  json_Unmarshal_BDNSResponse := decodeResponse;
  json_Decode_GossipMessage := decodeEnvelope;
  rand_Read := readEntropy;
  consensus_CommitmentPhase := commitmentPhase;
  poolIndex := fun _ pool => Z.of_nat (size pool)
|}.

Definition keyA : bytes := [x0a; xff].
Definition keyB : bytes := [x0b; x10].
Definition keyC : bytes := [xc0; x01].

Definition record : Transaction :=
  mkTransaction 1700000000 "example.bdns" "10.0.0.1" 3600 keyA [x01; x02].

(** Node A of scenario 1: a fresh node that holds one record and knows a
    registry of three keys. *)
Definition nodeA : Node :=
  let n := NewNode "/ip4/127.0.0.1/tcp/4001" (mkKeyPair keyA [x07]) in
  mkNode (Address n) (Port n) (Config n) (NodeKeyPair n) [keyA; keyB; keyC]
    (SlotLeaders n) (TransactionPool n) {[ "example.bdns" := record ]}
    (Blockchain n) (RandomNumber n) (EpochRandoms n).

Definition stock : bytes := repeat x2a 40.

Definition start : State := mkState nodeA (mkCollaborators (Some stock) 0).
Definition startNoEntropy : State := mkState nodeA (mkCollaborators None 0).

(** A node whose table is still the nil map. *)
Definition startNil : State :=
  mkState (set_EpochRandoms None nodeA) (mkCollaborators (Some stock) 0).

(** A Transaction envelope whose content is the JSON string "x", not an
    object: json.Unmarshal reports an error and leaves the variable zero. *)
Definition badTransaction : GossipMessage :=
  mkGossipMessage MsgTransaction [x22; x78; x22] "peer-B".

(** A Transaction envelope that decodes. *)
Definition goodTransaction : GossipMessage :=
  mkGossipMessage MsgTransaction (x7b :: x3c :: list_byte_of_string "example.bdns") "peer-B".

(** Scenario 3: three contributions for epoch 7, in two orders. *)
Definition contribution (k : bytes) (s r : Z) : RandomNumberMsg :=
  mkRandomNumberMsg 7 s r k.

Definition threeContributions : list RandomNumberMsg :=
  [contribution keyA 1 2; contribution keyB 3 4; contribution keyC 5 6].

Definition threeContributionsShuffled : list RandomNumberMsg :=
  [contribution keyC 5 6; contribution keyA 1 2; contribution keyB 3 4].

End Sample.

(** ** Further notions: traffic the loop handles, and locks *)

(** The message types that have a case in the switch of HandleGossip. *)
Definition handled (t : MessageType) : bool :=
  match t with
  | DNSRequest | MsgTransaction | MsgBlock | MsgRandomNumber => true
  | _ => false
  end.

(** The contributions a channel carries: the contents that decode without
    error, in order of arrival. *)
Definition decodedContributions {ext : Externals} (chan : list GossipMessage)
    : list RandomNumberMsg :=
  omap (fun msg =>
          match snd (json_Unmarshal_RandomNumberMsg (msg_Content msg)) with
          | None => Some (fst (json_Unmarshal_RandomNumberMsg (msg_Content msg)))
          | Some _ => None
          end) chan.

(** The reply a DNSRequest envelope gets from a node, if any.  The domain
    is the one the decoder left in the request, also when it reported an
    error. *)
Definition dnsReply {ext : Externals} (n : Node) (msg : GossipMessage) : option Effect :=
  match GetIP (IndexManager n)
          (req_DomainName (fst (json_Unmarshal_BDNSRequest (msg_Content msg)))) with
  | Some tx =>
      Some (EvDirect DNSResponse
              (PResponse (mkBDNSResponse (tx_Timestamp tx) (tx_DomainName tx) (tx_IP tx)
                            (tx_TTL tx) (tx_OwnerKey tx) (tx_Signature tx)))
              (msg_Sender msg))
  | None => None
  end.

Definition Mutex_eqb (a b : Mutex) : bool :=
  match a, b with
  | SlotMutex, SlotMutex | TxMutex, TxMutex
  | BcMutex, BcMutex | RandomMutex, RandomMutex => true
  | _, _ => false
  end.

Definition release (m : Mutex) (held : list Mutex) : list Mutex :=
  List.filter (fun x => negb (Mutex_eqb m x)) held.

(** The mutexes held at the end of a log that starts with [held] held.
    [None]: a mutex is locked while held (sync.Mutex is not reentrant, the
    goroutine blocks for ever) or unlocked while not held (a fatal error
    of package sync). *)
Fixpoint locksHeld {ext : Externals} (held : list Mutex) (l : list Effect)
    : option (list Mutex) :=
  match l with
  | [] => Some held
  | EvLock m :: rest =>
      if existsb (Mutex_eqb m) held then None else locksHeld (m :: held) rest
  | EvUnlock m :: rest =>
      if existsb (Mutex_eqb m) held then locksHeld (release m held) rest else None
  | _ :: rest => locksHeld held rest
  end.

(** The sends of a log, each with the mutexes held when it goes out. *)
Fixpoint sendsUnderLock {ext : Externals} (held : list Mutex) (l : list Effect)
    : list (Effect * list Mutex) :=
  match l with
  | [] => []
  | EvLock m :: rest => sendsUnderLock (m :: held) rest
  | EvUnlock m :: rest => sendsUnderLock (release m held) rest
  | e :: rest =>
      if is_send e then (e, held) :: sendsUnderLock held rest
      else sendsUnderLock held rest
  end.

(** Effects that only write to the log or to standard output. *)
Definition is_print {ext : Externals} (e : Effect) : bool :=
  match e with
  | EvLog _ | EvStdout _ => true
  | _ => false
  end.

(** More concrete data: a node that is not in the registry, a second node,
    and a record the sample codec can carry. *)
Module Cases.
Import Sample.

Definition keyD : bytes := [xee].

(** A node whose own key is not among its registry keys. *)
Definition outsider : Node :=
  let n := Sample.nodeA in
  mkNode (Address n) (Port n) (Config n) (mkKeyPair keyD [x08]) (RegistryKeys n)
    (SlotLeaders n) (TransactionPool n) (IndexManager n)
    (Blockchain n) (RandomNumber n) (EpochRandoms n).

Definition startOutsider : State :=
  mkState outsider (mkCollaborators (Some stock) 0).

Definition plainRecord : Transaction :=
  mkTransaction 0 "a" "10.0.0.1" 3 [] [].

(** The responder of a query for "a". *)
Definition responder : State :=
  let n := Sample.nodeA in
  mkState
    (mkNode (Address n) (Port n) (Config n) (NodeKeyPair n) (RegistryKeys n)
       (SlotLeaders n) (TransactionPool n) {[ "a" := plainRecord ]}
       (Blockchain n) (RandomNumber n) (EpochRandoms n))
    (Sample.mkCollaborators (Some Sample.stock) 0).

(** The requester, node B. *)
Definition requester : State :=
  mkState (NewNode "/ip4/127.0.0.1/tcp/4002" (mkKeyPair Sample.keyB [x09]))
    (Sample.mkCollaborators (Some Sample.stock) 0).

(** Gossip traffic for epoch 7: a contribution of B, an undecodable one,
    a DNSResponse that strayed onto the gossip topic, a contribution of C. *)
Definition traffic : list GossipMessage :=
  [mkGossipMessage MsgRandomNumber [x7b; x07; x03; x04; x0b; x10] "peer-B";
   mkGossipMessage MsgRandomNumber [x22; x78; x22] "peer-X";
   mkGossipMessage DNSResponse [x7b; x03; x61] "peer-Y";
   mkGossipMessage MsgRandomNumber [x7b; x07; x05; x06; xc0; x01] "peer-C"].

(** Three queries: a stored domain, an unknown one, the stored one again
    from another peer. *)
Definition queries : list GossipMessage :=
  [mkGossipMessage DNSRequest (x7b :: list_byte_of_string "example.bdns") "peer-B";
   mkGossipMessage DNSRequest (x7b :: list_byte_of_string "nowhere.bdns") "peer-C";
   mkGossipMessage DNSRequest (x7b :: list_byte_of_string "example.bdns") "peer-D"].

Definition randomTraffic : list GossipMessage :=
  [mkGossipMessage MsgRandomNumber [x7b; x07; x03; x04; x0b; x10] "peer-B";
   mkGossipMessage MsgRandomNumber [x22; x78; x22] "peer-X";
   mkGossipMessage MsgRandomNumber [x7b; x07; x05; x06; xc0; x01] "peer-C"].

End Cases.

(** * Properties *)

(** ** encoding/hex loses nothing *)

Lemma hex_byte_roundtrip (b : byte) :
  exists h l,
    unhexdigit (hexdigit (N.shiftr (Byte.to_N b) 4)) = Some h /\
    unhexdigit (hexdigit (N.land (Byte.to_N b) 15)) = Some l /\
    Byte.of_N (h * 16 + l) = Some b.
Proof.
  destruct b; vm_compute; eexists; eexists; repeat split; reflexivity.
Qed.

Lemma hex_DecodeString_EncodeToString (src : bytes) :
  hex_DecodeString (hex_EncodeToString src) = Some src.
Proof.
  induction src as [|b rest IH]; [reflexivity|].
  destruct (hex_byte_roundtrip b) as (h & l & Hh & Hl & Hb).
  cbn [hex_EncodeToString hex_DecodeString].
  rewrite Hh, Hl, IH, Hb. reflexivity.
Qed.

Lemma hex_EncodeToString_inj (a b : bytes) :
  hex_EncodeToString a = hex_EncodeToString b -> a = b.
Proof.
  intros H.
  assert (Some a = Some b) as E; [|congruence].
  rewrite <- (hex_DecodeString_EncodeToString a), <- (hex_DecodeString_EncodeToString b).
  f_equal. exact H.
Qed.

(** ** The table update in closed form *)

Lemma set_EpochRandoms_id (n : Node) : set_EpochRandoms (EpochRandoms n) n = n.
Proof. destruct n; reflexivity. Qed.

Lemma set_EpochRandoms_twice (t t' : EpochTable) (n : Node) :
  set_EpochRandoms t (set_EpochRandoms t' n) = set_EpochRandoms t n.
Proof. reflexivity. Qed.

Lemma epochRow_upsert_eq epoch sender v t :
  epochRow (upsert epoch sender v t) epoch
  = Some (<[sender := v]> (default ∅ (epochRow t epoch))).
Proof. unfold upsert, epochRow at 1. by rewrite lookup_insert_eq. Qed.

Lemma epochRow_upsert_ne epoch epoch' sender v t :
  epoch ≠ epoch' ->
  epochRow (upsert epoch sender v t) epoch' = epochRow t epoch'.
Proof.
  intros Hne. unfold upsert, epochRow at 1.
  rewrite lookup_insert_ne by done.
  destruct t as [outer|]; simpl; [done|]. by rewrite lookup_empty.
Qed.

Lemma epochCell_upsert_eq epoch sender v t :
  epochCell (upsert epoch sender v t) epoch sender = Some v.
Proof. unfold epochCell. rewrite epochRow_upsert_eq. apply lookup_insert_eq. Qed.

Lemma epochCell_upsert_ne epoch sender v t epoch' sender' :
  (epoch', sender') ≠ (epoch, sender) ->
  epochCell (upsert epoch sender v t) epoch' sender' = epochCell t epoch' sender'.
Proof.
  intros Hne. unfold epochCell.
  destruct (decide (epoch = epoch')) as [->|He].
  - rewrite epochRow_upsert_eq.
    rewrite lookup_insert_ne by congruence.
    destruct (epochRow t epoch'); simpl; [done|apply lookup_empty].
  - by rewrite epochRow_upsert_ne.
Qed.

Lemma upsert_idempotent epoch sender v t :
  upsert epoch sender v (upsert epoch sender v t) = upsert epoch sender v t.
Proof.
  unfold upsert at 1. rewrite epochRow_upsert_eq. simpl.
  rewrite insert_insert_eq. unfold upsert. simpl.
  by rewrite insert_insert_eq.
Qed.

Lemma upsert_comm e1 p1 v1 e2 p2 v2 t :
  (e1, p1) ≠ (e2, p2) ->
  upsert e1 p1 v1 (upsert e2 p2 v2 t) = upsert e2 p2 v2 (upsert e1 p1 v1 t).
Proof.
  intros Hne. destruct (decide (e1 = e2)) as [->|He].
  - assert (p1 ≠ p2) by congruence.
    unfold upsert at 1 3. rewrite !epochRow_upsert_eq. simpl.
    unfold upsert. simpl. rewrite !insert_insert_eq.
    do 2 f_equal. f_equal. by apply insert_insert_ne.
  - unfold upsert at 1 3.
    rewrite !epochRow_upsert_ne by done.
    unfold upsert. simpl. f_equal. by apply insert_insert_ne.
Qed.

Section Proofs.
Context {ext : Externals}.

(** ** Sequencing *)

Lemma bind_Done {A B} (m : M A) (f : A -> M B) (st : State) (a : A) :
  outcome (m st) = Done a ->
  bind m f st
  = mkResult (outcome (f a (final (m st)))) (final (f a (final (m st))))
      (events (m st) ++ events (f a (final (m st)))).
Proof. intros H. unfold bind. by rewrite H. Qed.

Lemma bind_Panicked {A B} (m : M A) (f : A -> M B) (st : State) (msg : string) :
  outcome (m st) = Panicked msg ->
  bind m f st = mkResult (Panicked msg) (final (m st)) (events (m st)).
Proof. intros H. unfold bind. by rewrite H. Qed.

Lemma effects_app {A B} (r : Result A) (r' : Result B) (o : Outcome B) (s : State) :
  effects (mkResult o s (events r ++ events r')) = effects r ++ effects r'.
Proof. unfold effects. cbn [events]. apply map_app. Qed.

(** What a call of RandomNumberHandler does, all at once: it returns, it
    replaces the table by [upsert], it touches nothing else, and it logs
    the lock before and the unlock after the write. *)
Lemma RandomNumberHandler_run epoch sender s r (st : State) :
  RandomNumberHandler epoch sender s r st
  = mkResult (Done tt)
      (mkState (set_EpochRandoms
                  (upsert epoch sender (mkSecretValues s r) (EpochRandoms (node st)))
                  (node st))
               (extst st))
      [(EvLock RandomMutex, node st);
       (EvUnlock RandomMutex,
        set_EpochRandoms
          (upsert epoch sender (mkSecretValues s r) (EpochRandoms (node st)))
          (node st))].
Proof.
  destruct st as [n x]. destruct n as [a p c k rk sl tp im bc rn t].
  unfold RandomNumberHandler, defer, bind, emit, getNode, modifyNode, ret,
    assignRow, assignCell, panic, upsert, set_EpochRandoms, epochRow.
  destruct t as [outer|]; cbn -[insert lookup empty].
  - destruct (outer !! epoch) as [[row|]|] eqn:E; cbn -[insert lookup empty].
    + rewrite E. cbn -[insert lookup empty]. reflexivity.
    + rewrite lookup_insert_eq. cbn -[insert lookup empty].
      rewrite insert_insert_eq. reflexivity.
    + rewrite lookup_insert_eq. cbn -[insert lookup empty].
      rewrite insert_insert_eq. reflexivity.
  - rewrite lookup_empty. cbn -[insert lookup empty].
    rewrite lookup_insert_eq. cbn -[insert lookup empty].
    rewrite insert_insert_eq. reflexivity.
Qed.


Lemma applyContribution_run (m : RandomNumberMsg) (st : State) :
  outcome (applyContribution m st) = Done tt /\
  final (applyContribution m st)
  = mkState (set_EpochRandoms (upsertAll [m] (EpochRandoms (node st))) (node st))
      (extst st).
Proof. unfold applyContribution. rewrite RandomNumberHandler_run. done. Qed.

Lemma applyContributions_run (l : list RandomNumberMsg) (st : State) :
  outcome (applyContributions l st) = Done tt /\
  final (applyContributions l st)
  = mkState (set_EpochRandoms (upsertAll l (EpochRandoms (node st))) (node st))
      (extst st).
Proof.
  revert st. induction l as [|m rest IH]; intros st.
  - split; [done|]. destruct st as [n x]; simpl. by rewrite set_EpochRandoms_id.
  - destruct (applyContribution_run m st) as [Ho Hf].
    destruct (IH (final (applyContribution m st))) as [Ho' Hf'].
    cbn [applyContributions]. rewrite (bind_Done _ _ _ _ Ho). cbn [outcome final].
    split; [exact Ho'|]. rewrite Hf'. rewrite Hf. reflexivity.
Qed.

Lemma epochCell_row (t : EpochTable) epoch sender :
  epochCell t epoch sender = default ∅ (epochRow t epoch) !! sender.
Proof. unfold epochCell. destruct (epochRow t epoch); simpl; [done|by rewrite lookup_empty]. Qed.

Lemma upsertAll_other (l : list RandomNumberMsg) (t : EpochTable) epoch sender :
  (forall m, m ∈ l -> (rn_Epoch m, hex_EncodeToString (rn_Sender m)) ≠ (epoch, sender)) ->
  epochCell (upsertAll l t) epoch sender = epochCell t epoch sender.
Proof.
  revert t. induction l as [|x rest IH]; intros t Hl; [done|].
  cbn [upsertAll foldl]. change (foldl _ ?a rest) with (upsertAll rest a).
  rewrite IH by (intros m Hm; apply Hl; by right).
  apply epochCell_upsert_ne. intros E. apply (Hl x); [by left|]. by symmetry.
Qed.

Lemma upsertAll_member (l : list RandomNumberMsg) (t : EpochTable) (m : RandomNumberMsg) :
  NoDup (rn_Sender <$> l) -> m ∈ l ->
  epochCell (upsertAll l t) (rn_Epoch m) (hex_EncodeToString (rn_Sender m))
  = Some (mkSecretValues (rn_SecretValue m) (rn_RandomValue m)).
Proof.
  revert t. induction l as [|x rest IH]; intros t Hnd Hm.
  - by apply elem_of_nil in Hm.
  - rewrite fmap_cons in Hnd. apply NoDup_cons in Hnd as [Hx Hrest].
    cbn [upsertAll foldl]. change (foldl _ ?a rest) with (upsertAll rest a).
    apply elem_of_cons in Hm as [->|Hm].
    + rewrite upsertAll_other; [apply epochCell_upsert_eq|].
      intros m Hm E. apply Hx. apply list_elem_of_fmap. exists m. split; [|done].
      apply hex_EncodeToString_inj. congruence.
    + by apply IH.
Qed.

Lemma upsertAll_perm (l l' : list RandomNumberMsg) (t : EpochTable) :
  NoDup (rn_Sender <$> l) -> l ≡ₚ l' -> upsertAll l t = upsertAll l' t.
Proof.
  intros Hnd Hp. revert t. induction Hp as [|x l l' Hp IH|x y l|l l' l'' Hp IH Hp' IH']; intros t.
  - done.
  - cbn [upsertAll foldl]. apply IH.
    rewrite fmap_cons in Hnd. by apply NoDup_cons in Hnd as [_ ?].
  - cbn [upsertAll foldl]. f_equal.
    rewrite !fmap_cons in Hnd. apply NoDup_cons in Hnd as [Hy _].
    apply upsert_comm. cbn [contributionCell fst]. intros E. apply Hy.
    assert (rn_Sender x = rn_Sender y) as ->
      by (apply hex_EncodeToString_inj; congruence).
    by left.
  - rewrite IH by done. apply IH'. by rewrite <- Hp.
Qed.

Lemma upsertAll_row (l : list RandomNumberMsg) (t : EpochTable) epoch :
  Forall (fun m => rn_Epoch m = epoch) l ->
  NoDup (rn_Sender <$> l) ->
  default ∅ (epochRow t epoch) = ∅ ->
  default ∅ (epochRow (upsertAll l t) epoch) = contributionRow l.
Proof.
  intros He Hnd Hempty. apply map_eq. intros p.
  rewrite <- epochCell_row. unfold contributionRow.
  destruct (list_to_map (contributionCell <$> l) !! p) as [v|] eqn:Hp.
  - apply elem_of_list_to_map_2 in Hp. apply list_elem_of_fmap in Hp as (m & Hm & Hin).
    injection Hm as -> ->.
    rewrite Forall_forall in He. rewrite <- (He m Hin).
    by apply upsertAll_member.
  - apply not_elem_of_list_to_map_2 in Hp.
    rewrite upsertAll_other; [by rewrite epochCell_row, Hempty, lookup_empty|].
    intros m Hm E. apply Hp. rewrite <- list_fmap_compose.
    apply list_elem_of_fmap. exists m. split; [|done]. simpl. congruence.
Qed.

Lemma contributionRow_size (l : list RandomNumberMsg) :
  NoDup (rn_Sender <$> l) -> size (contributionRow l) = length l.
Proof.
  intros Hnd. unfold contributionRow. rewrite map_size_list_to_map.
  - by rewrite length_fmap.
  - rewrite <- list_fmap_compose.
    assert (NoDup ((hex_EncodeToString ∘ rn_Sender) <$> l)) as H.
    { rewrite list_fmap_compose. apply NoDup_fmap_2; [|done].
      intros a b. apply hex_EncodeToString_inj. }
    exact H.
Qed.

(** ** The local broadcast of a contribution, all at once *)

Lemma BroadcastRandomNumber_run epoch (registryKeys : list bytes) (st : State) :
  let n := node st in
  let cp := consensus_CommitmentPhase (RegistryKeys n) (extst st) in
  let self := hex_EncodeToString (PublicKey (NodeKeyPair n)) in
  let v := default SecretValues_zero (cp.1 !! self) in
  let n' := set_EpochRandoms
              (upsert epoch self (mkSecretValues (SecretValue v) (RandomValue v))
                 (EpochRandoms n)) n in
  BroadcastRandomNumber epoch registryKeys st
  = mkResult (Done tt) (mkState n' cp.2)
      [(EvCommitmentPhase (RegistryKeys n), n);
       (EvLock RandomMutex, n);
       (EvUnlock RandomMutex, n');
       (EvBroadcast MsgRandomNumber
          (PRandomNumber
             (mkRandomNumberMsg epoch (SecretValue v) (RandomValue v)
                (PublicKey (NodeKeyPair n)))), n')].
Proof.
  intros n cp self v n'. subst n cp self v n'.
  destruct st as [n x].
  unfold BroadcastRandomNumber, getNode, emit, callExt, bind.
  cbn [outcome final events node extst].
  rewrite RandomNumberHandler_run. reflexivity.
Qed.

(** ** Claims about the epoch-randomness table *)

(** C2.  After RandomNumberHandler(E, P, s, r) the cell EpochRandoms[E][P]
    holds {s, r}, and a second call with the same arguments changes
    nothing.  The same holds when the handler is reached through the gossip
    loop (a MsgRandomNumber envelope that decodes to a contribution), and
    the local broadcast leaves the caller's own values in the cell of its
    own identifier. *)
Theorem RandomNumberHandler_upsert_idempotent epoch sender s r (st : State) :
  let once := RandomNumberHandler epoch sender s r st in
  let twice := RandomNumberHandler epoch sender s r (final once) in
  (outcome once = Done tt /\
   epochCell (EpochRandoms (node (final once))) epoch sender = Some (mkSecretValues s r) /\
   outcome twice = Done tt /\
   final twice = final once) /\
  (forall msg m,
     msg_Type msg = MsgRandomNumber ->
     json_Unmarshal_RandomNumberMsg (msg_Content msg) = (m, None) ->
     let delivered := HandleGossip_body msg st in
     epochCell (EpochRandoms (node (final delivered))) (rn_Epoch m)
       (hex_EncodeToString (rn_Sender m))
     = Some (mkSecretValues (rn_SecretValue m) (rn_RandomValue m)) /\
     final (HandleGossip_body msg (final delivered)) = final delivered) /\
  (forall registryKeys,
     let n := node st in
     let self := hex_EncodeToString (PublicKey (NodeKeyPair n)) in
     let own := default SecretValues_zero
                  ((consensus_CommitmentPhase (RegistryKeys n) (extst st)).1 !! self) in
     epochCell (EpochRandoms (node (final (BroadcastRandomNumber epoch registryKeys st))))
       epoch self
     = Some (mkSecretValues (SecretValue own) (RandomValue own))).
Proof.
  intros once twice. subst once twice. split; [|split].
  - rewrite !RandomNumberHandler_run. cbn [outcome final node extst].
    repeat split.
    + apply epochCell_upsert_eq.
    + rewrite set_EpochRandoms_twice. cbn [EpochRandoms set_EpochRandoms].
      by rewrite upsert_idempotent.
  - intros msg m Hty Hdec delivered. subst delivered.
    unfold HandleGossip_body. rewrite Hty, Hdec. cbn [fst snd].
    rewrite !RandomNumberHandler_run. cbn [outcome final node extst].
    split.
    + apply epochCell_upsert_eq.
    + rewrite set_EpochRandoms_twice. cbn [EpochRandoms set_EpochRandoms].
      by rewrite upsert_idempotent.
  - intros registryKeys n self own.
    pose proof (BroadcastRandomNumber_run epoch registryKeys st) as Hrun.
    cbn zeta in Hrun. rewrite Hrun. cbn [final node].
    apply epochCell_upsert_eq.
Qed.

(** C10.  RandomNumberHandler(E, P, s, r) leaves every other cell of the
    table as it was, and every other field of the node, and the
    collaborators, untouched. *)
Theorem RandomNumberHandler_frame epoch sender s r (st : State) :
  let st' := final (RandomNumberHandler epoch sender s r st) in
  (forall epoch' sender',
     (epoch', sender') ≠ (epoch, sender) ->
     epochCell (EpochRandoms (node st')) epoch' sender'
     = epochCell (EpochRandoms (node st)) epoch' sender') /\
  TransactionPool (node st') = TransactionPool (node st) /\
  SlotLeaders (node st') = SlotLeaders (node st) /\
  Blockchain (node st') = Blockchain (node st) /\
  RandomNumber (node st') = RandomNumber (node st) /\
  IndexManager (node st') = IndexManager (node st) /\
  RegistryKeys (node st') = RegistryKeys (node st) /\
  NodeKeyPair (node st') = NodeKeyPair (node st) /\
  Address (node st') = Address (node st) /\
  Port (node st') = Port (node st) /\
  Config (node st') = Config (node st) /\
  extst st' = extst st /\
  sends (RandomNumberHandler epoch sender s r st) = [].
Proof.
  intros st'. subst st'. rewrite RandomNumberHandler_run.
  cbn [final node extst]. split; [|by repeat split].
  intros epoch' sender' Hne. cbn [EpochRandoms set_EpochRandoms].
  by apply epochCell_upsert_ne.
Qed.

(** C5.  Contributions for one epoch from distinct senders may be applied
    in any order: the node ends in the same state; every contribution is
    in the table under its sender; the cells of other senders are as they
    were; and if the epoch had no entries before, its row is exactly the
    contributions, one entry per sender. *)
Theorem contributions_order_irrelevant epoch (l l' : list RandomNumberMsg) (st : State) :
  Forall (fun m => rn_Epoch m = epoch) l ->
  NoDup (rn_Sender <$> l) ->
  l ≡ₚ l' ->
  let st1 := final (applyContributions l st) in
  let st2 := final (applyContributions l' st) in
  outcome (applyContributions l st) = Done tt /\
  outcome (applyContributions l' st) = Done tt /\
  st1 = st2 /\
  (forall m, m ∈ l ->
     epochCell (EpochRandoms (node st1)) epoch (hex_EncodeToString (rn_Sender m))
     = Some (mkSecretValues (rn_SecretValue m) (rn_RandomValue m))) /\
  (forall p, (forall m, m ∈ l -> hex_EncodeToString (rn_Sender m) ≠ p) ->
     epochCell (EpochRandoms (node st1)) epoch p
     = epochCell (EpochRandoms (node st)) epoch p) /\
  (default ∅ (epochRow (EpochRandoms (node st)) epoch) = ∅ ->
     default ∅ (epochRow (EpochRandoms (node st1)) epoch) = contributionRow l /\
     size (contributionRow l) = length l).
Proof.
  intros He Hnd Hp st1 st2. subst st1 st2.
  destruct (applyContributions_run l st) as [Ho Hf].
  destruct (applyContributions_run l' st) as [Ho' Hf'].
  rewrite Hf, Hf'. cbn [node EpochRandoms set_EpochRandoms].
  split; [done|]. split; [done|]. split; [by rewrite (upsertAll_perm l l')|].
  split; [|split].
  - intros m Hm. rewrite Forall_forall in He. rewrite <- (He m Hm).
    by apply upsertAll_member.
  - intros p Hother. apply upsertAll_other. intros m Hm E. apply (Hother m Hm). congruence.
  - intros Hempty. split; [by apply upsertAll_row|by apply contributionRow_size].
Qed.

(** ** Handlers that only log, print, lock or forward *)

Lemma MessageType_eqb_eq (a b : MessageType) :
  MessageType_eqb a b = true <-> a = b.
Proof.
  destruct a, b; simpl; split; try done.
  - intros H. apply Z.eqb_eq in H. by subst.
  - intros H. injection H as ->. apply Z.eqb_refl.
Qed.

Lemma AddTransaction_run (tx : Transaction) (st : State) :
  let n := node st in
  let n' := set_TransactionPool
              (<[poolIndex tx (TransactionPool n) := tx]> (TransactionPool n)) n in
  AddTransaction tx st
  = mkResult (Done tt) (mkState n' (extst st))
      [(EvLock TxMutex, n); (EvLedgerAddTransaction tx, n'); (EvUnlock TxMutex, n')].
Proof. reflexivity. Qed.

Lemma AddBlock_run (b : Block) (st : State) :
  AddBlock b st
  = mkResult (Done tt) st
      [(EvLock BcMutex, node st); (EvLedgerAddBlock b, node st); (EvUnlock BcMutex, node st)].
Proof. reflexivity. Qed.

Lemma DNSResponseHandler_run (res : BDNSResponse) (st : State) :
  DNSResponseHandler res st
  = mkResult (Done tt) st
      [(EvStdout (fmt_Sprintln ["DNS Response received at "; Address (node st); " -> ";
                                res_DomainName res; " IP:"; res_IP res]), node st)].
Proof. reflexivity. Qed.

Lemma DNSRequestHandler_run (req : BDNSRequest) (reqSender : string) (st : State) :
  let n := node st in
  let reply :=
    match GetIP (IndexManager n) (req_DomainName req) with
    | Some tx =>
        [(EvDirect DNSResponse
            (PResponse (mkBDNSResponse (tx_Timestamp tx) (tx_DomainName tx) (tx_IP tx)
                          (tx_TTL tx) (tx_OwnerKey tx) (tx_Signature tx)))
            reqSender, n)]
    | None => []
    end in
  DNSRequestHandler req reqSender st
  = mkResult (Done tt) st
      ((EvLock TxMutex, n) :: reply ++
       [(EvStdout (fmt_Sprintln ["DNS Request received at "; Address n; " -> ";
                                 req_DomainName req]), n);
        (EvUnlock TxMutex, n)]).
Proof.
  intros n reply. subst n reply.
  unfold DNSRequestHandler, defer, bind, getNode, emit, fmt_Println, ret.
  cbn [outcome final events node extst].
  destruct (GetIP (IndexManager (node st)) (req_DomainName req)); reflexivity.
Qed.

Lemma HandleGossip_body_returns (msg : GossipMessage) (st : State) :
  outcome (HandleGossip_body msg st) = Done tt.
Proof.
  unfold HandleGossip_body.
  destruct (msg_Type msg); try reflexivity.
  - destruct (json_Unmarshal_BDNSRequest (msg_Content msg)).2;
      unfold bind; cbn [outcome final log_Println emit ret];
      by rewrite DNSRequestHandler_run.
  - by destruct (json_Unmarshal_Transaction (msg_Content msg)).2.
  - by destruct (json_Unmarshal_Block (msg_Content msg)).2.
  - destruct (json_Unmarshal_RandomNumberMsg (msg_Content msg)).2; [done|].
    by rewrite RandomNumberHandler_run.
Qed.

(** The loop never stops early and hands no error to its caller, whatever
    the channel delivers. *)
Lemma HandleGossip_loop_returns (chan : list GossipMessage) (st : State) :
  outcome (HandleGossip_loop chan st) = Done tt.
Proof.
  revert st. induction chan as [|msg rest IH]; intros st; [done|].
  cbn [HandleGossip_loop].
  rewrite (bind_Done _ _ _ _ (HandleGossip_body_returns msg st)).
  cbn [outcome]. apply IH.
Qed.

(** After any message, decodable or not, the loop goes on with the rest. *)
Lemma HandleGossip_loop_continues (msg : GossipMessage) (rest : list GossipMessage)
    (st : State) :
  final (HandleGossip_loop (msg :: rest) st)
  = final (HandleGossip_loop rest (final (HandleGossip_body msg st))) /\
  effects (HandleGossip_loop (msg :: rest) st)
  = effects (HandleGossip_body msg st)
    ++ effects (HandleGossip_loop rest (final (HandleGossip_body msg st))).
Proof.
  cbn [HandleGossip_loop].
  rewrite (bind_Done _ _ _ _ (HandleGossip_body_returns msg st)).
  split; [reflexivity|apply effects_app].
Qed.

Lemma HandleGossip_returns (chan : list GossipMessage) (st : State) :
  outcome (HandleGossip chan st) = Done tt.
Proof.
  unfold HandleGossip.
  by rewrite (bind_Done _ _ _ _ (HandleGossip_loop_returns chan st)).
Qed.

(** ** Claims about the broadcast operations *)

(** C3.  In BroadcastRandomNumber and in BroadcastTransaction the gossip
    send is the last effect, nothing is sent before it, and the node it
    sees is the node the local handler left behind: the caller's own cell
    of the table is already written, respectively the transaction is
    already in the pool, when the message goes out. *)
Theorem local_apply_before_send epoch (registryKeys : list bytes)
    (tx : Transaction) (st : State) :
  (let n := node st in
   let cp := consensus_CommitmentPhase (RegistryKeys n) (extst st) in
   let self := hex_EncodeToString (PublicKey (NodeKeyPair n)) in
   let own := default SecretValues_zero (cp.1 !! self) in
   let applied := RandomNumberHandler epoch self (SecretValue own) (RandomValue own)
                    (mkState n cp.2) in
   events (BroadcastRandomNumber epoch registryKeys st)
   = ((EvCommitmentPhase (RegistryKeys n), n) :: events applied) ++
     [(EvBroadcast MsgRandomNumber
         (PRandomNumber (mkRandomNumberMsg epoch (SecretValue own) (RandomValue own)
                           (PublicKey (NodeKeyPair n)))),
       node (final applied))] /\
   sends applied = [] /\
   epochCell (EpochRandoms (node (final applied))) epoch self
   = Some (mkSecretValues (SecretValue own) (RandomValue own)) /\
   final (BroadcastRandomNumber epoch registryKeys st) = final applied) /\
  (let added := AddTransaction tx st in
   events (BroadcastTransaction tx st)
   = events added ++
     [(EvBroadcast MsgTransaction (PTransaction tx), node (final added))] /\
   sends added = [] /\
   EvLedgerAddTransaction tx ∈ effects added /\
   TransactionPool (node (final added)) !! poolIndex tx (TransactionPool (node st))
   = Some tx /\
   final (BroadcastTransaction tx st) = final added).
Proof.
  split.
  - intros n cp self own applied.
    pose proof (BroadcastRandomNumber_run epoch registryKeys st) as Hrun.
    cbn zeta in Hrun. rewrite Hrun. subst applied.
    rewrite RandomNumberHandler_run. cbn [events final node extst].
    repeat split. apply epochCell_upsert_eq.
  - intros added. subst added. unfold BroadcastTransaction.
    rewrite (bind_Done _ _ _ tt) by reflexivity.
    rewrite AddTransaction_run. cbn [events final node extst emit outcome].
    repeat split.
    + unfold effects. cbn. set_solver.
    + cbn [TransactionPool set_TransactionPool]. apply lookup_insert_eq.
Qed.

(** C7.  BroadcastRandomNumber(E) runs the commitment phase on the node's
    registry keys, looks its own entry up under the hex form of its public
    key, and broadcasts exactly one message: the contribution made of E,
    that entry's two values and the public key. *)
Theorem BroadcastRandomNumber_message epoch (registryKeys : list bytes) (st : State) :
  let n := node st in
  let cp := consensus_CommitmentPhase (RegistryKeys n) (extst st) in
  let own := default SecretValues_zero
               (cp.1 !! hex_EncodeToString (PublicKey (NodeKeyPair n))) in
  let msg := mkRandomNumberMsg epoch (SecretValue own) (RandomValue own)
               (PublicKey (NodeKeyPair n)) in
  outcome (BroadcastRandomNumber epoch registryKeys st) = Done tt /\
  effects (BroadcastRandomNumber epoch registryKeys st)
  = [EvCommitmentPhase (RegistryKeys n); EvLock RandomMutex; EvUnlock RandomMutex;
     EvBroadcast MsgRandomNumber (PRandomNumber msg)] /\
  sends (BroadcastRandomNumber epoch registryKeys st)
  = [EvBroadcast MsgRandomNumber (PRandomNumber msg)] /\
  extst (final (BroadcastRandomNumber epoch registryKeys st)) = cp.2.
Proof.
  intros n cp own msg.
  pose proof (BroadcastRandomNumber_run epoch registryKeys st) as Hrun.
  cbn zeta in Hrun. rewrite Hrun. by repeat split.
Qed.

(** C9.  The registryKeys argument of BroadcastRandomNumber is never read:
    two calls that differ only in it give the same result, state and
    effects, and the commitment phase is run on the RegistryKeys field of
    the node. *)
Theorem BroadcastRandomNumber_ignores_registryKeys epoch
    (registryKeys1 registryKeys2 : list bytes) (st : State) :
  BroadcastRandomNumber epoch registryKeys1 st
  = BroadcastRandomNumber epoch registryKeys2 st /\
  EvCommitmentPhase (RegistryKeys (node st))
    ∈ effects (BroadcastRandomNumber epoch registryKeys1 st) /\
  (forall keys, EvCommitmentPhase keys
                  ∈ effects (BroadcastRandomNumber epoch registryKeys1 st) ->
                keys = RegistryKeys (node st)).
Proof.
  split; [reflexivity|].
  pose proof (BroadcastRandomNumber_run epoch registryKeys1 st) as Hrun.
  cbn zeta in Hrun. rewrite Hrun. unfold effects. cbn [events map fst].
  split; [set_solver|].
  intros keys Hin. repeat (apply elem_of_cons in Hin as [Hin|Hin]; [congruence|]).
  by apply elem_of_nil in Hin.
Qed.

(** ** Claims about the DNS protocol *)

(** C4.  DNSRequestHandler sends nothing when the domain is not in the
    index; when it is, it sends exactly one message: a direct DNSResponse
    that carries the six fields of the stored record to the sender it was
    given.  The gossip loop hands it the Sender of the envelope. *)
Theorem DNSRequestHandler_reply (req : BDNSRequest) (reqSender : string) (st : State) :
  (GetIP (IndexManager (node st)) (req_DomainName req) = None ->
   sends (DNSRequestHandler req reqSender st) = []) /\
  (forall tx,
     GetIP (IndexManager (node st)) (req_DomainName req) = Some tx ->
     sends (DNSRequestHandler req reqSender st)
     = [EvDirect DNSResponse
          (PResponse (mkBDNSResponse (tx_Timestamp tx) (tx_DomainName tx) (tx_IP tx)
                        (tx_TTL tx) (tx_OwnerKey tx) (tx_Signature tx)))
          reqSender]) /\
  (forall msg,
     msg_Type msg = DNSRequest ->
     json_Unmarshal_BDNSRequest (msg_Content msg) = (req, None) ->
     HandleGossip_body msg st = DNSRequestHandler req (msg_Sender msg) st) /\
  outcome (DNSRequestHandler req reqSender st) = Done tt /\
  final (DNSRequestHandler req reqSender st) = st.
Proof.
  pose proof (DNSRequestHandler_run req reqSender st) as Hrun. cbn zeta in Hrun.
  rewrite Hrun. split; [|split; [|split]].
  - intros Hnone. by rewrite Hnone.
  - intros tx Hsome. by rewrite Hsome.
  - intros msg Hty Hdec. unfold HandleGossip_body. rewrite Hty, Hdec. cbn [fst snd].
    rewrite (bind_Done _ _ _ tt) by reflexivity.
    cbn [ret outcome final events]. rewrite app_nil_l.
    by destruct (DNSRequestHandler req (msg_Sender msg) st).
  - done.
Qed.

(** C6.  The callback set for "/dns-response": an envelope of any type but
    DNSResponse is logged and the stream closed, with nothing sent, nothing
    printed and no state touched; an envelope of type DNSResponse has its
    content decoded and handed to DNSResponseHandler. *)
Theorem dnsResponseStream_type_check (s : bytes) (response : GossipMessage) (st : State) :
  json_Decode_GossipMessage s = (response, None) ->
  streamHandler ListenForDirectMessages "/dns-response" = Some dnsResponseStream /\
  (msg_Type response ≠ DNSResponse ->
   effects (dnsResponseStream s st)
   = [EvLog (fmt_Sprintln ["Invalid message type received"]); EvStreamClose] /\
   sends (dnsResponseStream s st) = [] /\
   outcome (dnsResponseStream s st) = Done tt /\
   final (dnsResponseStream s st) = st) /\
  (msg_Type response = DNSResponse ->
   let res_err := json_Unmarshal_BDNSResponse (msg_Content response) in
   effects (dnsResponseStream s st)
   = match res_err.2 with
     | Some _ => [EvLog (fmt_Sprintln ["Failed during unmarshalling"])]
     | None => []
     end ++ effects (DNSResponseHandler res_err.1 st) ++ [EvStreamClose]).
Proof.
  intros Hdec. split; [reflexivity|]. unfold dnsResponseStream. rewrite Hdec.
  cbn [fst snd]. split.
  - intros Hty.
    destruct (MessageType_eqb (msg_Type response) DNSResponse) eqn:E.
    + by apply MessageType_eqb_eq in E.
    + done.
  - intros Hty. cbn zeta. rewrite Hty. cbn [MessageType_eqb negb].
    by destruct (json_Unmarshal_BDNSResponse (msg_Content response)).2.
Qed.

(** ** Claims about failures *)

Lemma overwrite_length (buf written : bytes) :
  length (overwrite buf written) = length buf.
Proof. unfold overwrite. rewrite length_app, length_take, length_drop. lia. Qed.

(** C8.  GenerateRandomNumber: when rand.Read reports an error the call
    panics (after logging through log.Panic and releasing the lock); it
    returns nothing and stores nothing.  When rand.Read reports no error
    the call returns 32 bytes and has stored the same bytes in
    RandomNumber. *)
Theorem GenerateRandomNumber_fatal_or_32 (st : State) :
  let rd := rand_Read 32 (extst st) in
  let r := GenerateRandomNumber st in
  (forall err,
     rd.1.2 = Some err ->
     outcome r = Panicked (String.append "Failed to generate random number:" err) /\
     effects r = [EvLock RandomMutex;
                  EvLog (String.append "Failed to generate random number:" err);
                  EvUnlock RandomMutex] /\
     node (final r) = node st) /\
  (rd.1.2 = None ->
   exists randomBytes,
     outcome r = Done randomBytes /\
     RandomNumber (node (final r)) = randomBytes /\
     length randomBytes = 32%nat /\
     effects r = [EvLock RandomMutex; EvUnlock RandomMutex]).
Proof.
  intros rd r. subst rd r. unfold GenerateRandomNumber, defer, callExt.
  split.
  - intros err Herr. unfold bind. cbn [outcome final events emit node extst fst snd].
    rewrite Herr. by destruct st.
  - intros Hok. unfold bind. cbn [outcome final events emit node extst fst snd].
    rewrite Hok. exists (overwrite (repeat x00 32) (rand_Read 32 (extst st)).1.1).
    split; [reflexivity|]. split; [reflexivity|]. split; [|reflexivity].
    rewrite overwrite_length. reflexivity.
Qed.

(** C1.  What HandleGossip and the "/dns-response" callback do when the
    payload does not decode.  For a DNSRequest, a Transaction or a Block
    envelope, and for the content of a direct DNSResponse envelope, the
    failure is logged and the handler is run all the same, on the variable
    as the decoder left it.  Only the MsgRandomNumber case logs and goes on
    to the next message. *)
Theorem decode_failure_still_dispatches (msg : GossipMessage) (err : string) (st : State) :
  (msg_Type msg = DNSRequest ->
   (json_Unmarshal_BDNSRequest (msg_Content msg)).2 = Some err ->
   effects (HandleGossip_body msg st)
   = EvLog (fmt_Sprintln ["Failed during unmarshalling"])
     :: effects (DNSRequestHandler (json_Unmarshal_BDNSRequest (msg_Content msg)).1
                   (msg_Sender msg) st)) /\
  (msg_Type msg = MsgTransaction ->
   (json_Unmarshal_Transaction (msg_Content msg)).2 = Some err ->
   effects (HandleGossip_body msg st)
   = EvLog (fmt_Sprintln ["Failed during unmarshalling"])
     :: effects (AddTransaction (json_Unmarshal_Transaction (msg_Content msg)).1 st) /\
   final (HandleGossip_body msg st)
   = final (AddTransaction (json_Unmarshal_Transaction (msg_Content msg)).1 st)) /\
  (msg_Type msg = MsgBlock ->
   (json_Unmarshal_Block (msg_Content msg)).2 = Some err ->
   effects (HandleGossip_body msg st)
   = EvLog (fmt_Sprintln ["Failed during unmarshalling"])
     :: effects (AddBlock (json_Unmarshal_Block (msg_Content msg)).1 st)) /\
  (forall s response,
     json_Decode_GossipMessage s = (response, None) ->
     msg_Type response = DNSResponse ->
     (json_Unmarshal_BDNSResponse (msg_Content response)).2 = Some err ->
     effects (dnsResponseStream s st)
     = EvLog (fmt_Sprintln ["Failed during unmarshalling"])
       :: effects (DNSResponseHandler
                     (json_Unmarshal_BDNSResponse (msg_Content response)).1 st)
       ++ [EvStreamClose]) /\
  (msg_Type msg = MsgRandomNumber ->
   (json_Unmarshal_RandomNumberMsg (msg_Content msg)).2 = Some err ->
   effects (HandleGossip_body msg st)
   = [EvLog (fmt_Sprintln ["Failed to unmarshal random number message:"; err])] /\
   final (HandleGossip_body msg st) = st).
Proof.
  unfold HandleGossip_body. split; [|split; [|split; [|split]]].
  - intros Hty Herr. rewrite Hty, Herr.
    rewrite (bind_Done _ _ _ tt) by reflexivity. apply effects_app.
  - intros Hty Herr. rewrite Hty, Herr.
    rewrite (bind_Done _ _ _ tt) by reflexivity. split; [apply effects_app|done].
  - intros Hty Herr. rewrite Hty, Herr.
    rewrite (bind_Done _ _ _ tt) by reflexivity. apply effects_app.
  - intros s response Hdec Hty Herr. unfold dnsResponseStream.
    rewrite Hdec. cbn [fst snd]. rewrite Hty, Herr. reflexivity.
  - intros Hty Herr. rewrite Hty, Herr. by split.
Qed.

End Proofs.

(** * Further properties of node.go *)


Section Extras.
Context {ext : Externals}.

Lemma bind_ret_l {B} (f : unit -> M B) (st : State) :
  bind (ret tt) f st = f tt st.
Proof. unfold bind, ret. cbn [outcome final events]. by destruct (f tt st). Qed.

Lemma bind_ext {A B} (m : M A) (f g : A -> M B) (st : State) :
  (forall a s, f a s = g a s) -> bind m f st = bind m g st.
Proof. intros H. unfold bind. destruct (outcome (m st)); [by rewrite H|done]. Qed.

(** ** The epoch-randomness table *)


(** X2.  RandomNumberHandler only adds: afterwards the table is not nil,
    every cell that was there is still there, the rows of other epochs
    are the very same rows, and the row of the epoch has one entry more
    when the sender is new and as many as before when it is not. *)
Theorem RandomNumberHandler_grows epoch sender s r (st : State) :
  let t := EpochRandoms (node st) in
  let t' := EpochRandoms (node (final (RandomNumberHandler epoch sender s r st))) in
  t' <> None /\
  (forall epoch' sender',
     is_Some (epochCell t epoch' sender') -> is_Some (epochCell t' epoch' sender')) /\
  (forall epoch', epoch' <> epoch -> epochRow t' epoch' = epochRow t epoch') /\
  size (default ∅ (epochRow t' epoch))
  = match epochCell t epoch sender with
    | Some _ => size (default ∅ (epochRow t epoch))
    | None => S (size (default ∅ (epochRow t epoch)))
    end.
Proof.
  intros t t'. subst t t'. rewrite RandomNumberHandler_run.
  cbn [final node EpochRandoms set_EpochRandoms].
  split; [done|]. split; [|split].
  - intros epoch' sender' Hsome.
    destruct (decide ((epoch', sender') = (epoch, sender))) as [E|E].
    + injection E as -> ->. rewrite epochCell_upsert_eq. by eexists.
    + by rewrite epochCell_upsert_ne.
  - intros epoch' Hne. by apply epochRow_upsert_ne.
  - rewrite epochRow_upsert_eq. cbn [default id]. rewrite epochCell_row.
    destruct (default ∅ (epochRow (EpochRandoms (node st)) epoch) !! sender) eqn:E.
    + by erewrite map_size_insert_Some.
    + by rewrite map_size_insert_None.
Qed.

(** What the loop does with one MsgRandomNumber envelope. *)
Lemma HandleGossip_body_random (msg : GossipMessage) (st : State) :
  msg_Type msg = MsgRandomNumber ->
  final (HandleGossip_body msg st)
  = mkState (set_EpochRandoms
               (upsertAll (decodedContributions [msg]) (EpochRandoms (node st)))
               (node st))
      (extst st) /\
  sends (HandleGossip_body msg st) = [].
Proof.
  intros Hty. unfold HandleGossip_body, decodedContributions. rewrite Hty.
  cbn [omap list_omap].
  destruct (json_Unmarshal_RandomNumberMsg (msg_Content msg)).2.
  - cbn [log_Println emit final upsertAll foldl]. rewrite set_EpochRandoms_id.
    split; [by destruct st|done].
  - by rewrite RandomNumberHandler_run.
Qed.

(** X3.  A channel that carries only MsgRandomNumber envelopes: the loop
    leaves the table that results from upserting, in order of arrival, the
    contributions that decoded; an envelope that did not decode adds
    nothing; no other field changes and nothing is sent. *)
Theorem HandleGossip_random_traffic (chan : list GossipMessage) (st : State) :
  Forall (fun msg => msg_Type msg = MsgRandomNumber) chan ->
  final (HandleGossip chan st)
  = mkState (set_EpochRandoms
               (upsertAll (decodedContributions chan) (EpochRandoms (node st)))
               (node st))
      (extst st) /\
  sends (HandleGossip chan st) = [].
Proof.
  intros Hall.
  assert (final (HandleGossip_loop chan st)
          = mkState (set_EpochRandoms
                       (upsertAll (decodedContributions chan) (EpochRandoms (node st)))
                       (node st)) (extst st)
          /\ sends (HandleGossip_loop chan st) = []) as [Hf Hs].
  { revert st. induction Hall as [|msg rest Hty Hrest IH]; intros st.
    - cbn. rewrite set_EpochRandoms_id. split; [by destruct st|done].
    - destruct (HandleGossip_body_random msg st Hty) as [Hf Hs].
      destruct (HandleGossip_loop_continues msg rest st) as [Hfin Heff].
      destruct (IH (final (HandleGossip_body msg st))) as [IHf IHs].
      split.
      + rewrite Hfin, IHf, Hf. cbn [node extst EpochRandoms set_EpochRandoms].
        rewrite set_EpochRandoms_twice. f_equal. f_equal.
        unfold decodedContributions, upsertAll. cbn [omap list_omap].
        destruct (json_Unmarshal_RandomNumberMsg (msg_Content msg)).2;
          cbn [foldl]; reflexivity.
      + unfold sends in *. rewrite Heff, List.filter_app, Hs, IHs. reflexivity. }
  unfold HandleGossip.
  rewrite (bind_Done _ _ _ _ (HandleGossip_loop_returns chan st)).
  cbn [final getNode fmt_Println emit bind outcome events].
  split; [exact Hf|].
  unfold sends, effects in *. cbn [events]. rewrite map_app, List.filter_app, Hs.
  reflexivity.
Qed.

(** X4.  Echo and agreement.  When the message BroadcastRandomNumber sent
    comes back to the broadcaster through gossip, its state does not
    change; when it reaches any other node, that node records for the
    broadcaster the very values the broadcaster recorded for itself. *)
Theorem broadcast_echo_and_peer_agree epoch (registryKeys : list bytes)
    (st peer : State) (m : RandomNumberMsg) (env : GossipMessage) :
  sends (BroadcastRandomNumber epoch registryKeys st)
  = [EvBroadcast MsgRandomNumber (PRandomNumber m)] ->
  msg_Type env = MsgRandomNumber ->
  json_Unmarshal_RandomNumberMsg (msg_Content env) = (m, None) ->
  let after := final (BroadcastRandomNumber epoch registryKeys st) in
  let self := hex_EncodeToString (PublicKey (NodeKeyPair (node st))) in
  final (HandleGossip_body env after) = after /\
  epochCell (EpochRandoms (node (final (HandleGossip_body env peer)))) epoch self
  = epochCell (EpochRandoms (node after)) epoch self /\
  is_Some (epochCell (EpochRandoms (node after)) epoch self).
Proof.
  intros Hsent Hty Hdec after self. subst after self.
  pose proof (BroadcastRandomNumber_run epoch registryKeys st) as Hrun.
  cbn zeta in Hrun. rewrite Hrun in Hsent |- *.
  cbn in Hsent. injection Hsent as <-.
  unfold HandleGossip_body. rewrite Hty, Hdec. cbn [fst snd].
  rewrite !RandomNumberHandler_run.
  cbn [final node extst rn_Epoch rn_Sender rn_SecretValue rn_RandomValue
       EpochRandoms set_EpochRandoms].
  split; [|split].
  - rewrite set_EpochRandoms_twice. by rewrite upsert_idempotent.
  - by rewrite !epochCell_upsert_eq.
  - rewrite epochCell_upsert_eq. by eexists.
Qed.

(** X5.  A node whose own key has no entry in the mapping the commitment
    phase returns (it is not in its own registry) still broadcasts: the
    contribution carries the values 0 and 0, and the same zero pair is
    recorded in its table. *)
Theorem BroadcastRandomNumber_unregistered_zero epoch (registryKeys : list bytes)
    (st : State) :
  let n := node st in
  let self := hex_EncodeToString (PublicKey (NodeKeyPair n)) in
  (consensus_CommitmentPhase (RegistryKeys n) (extst st)).1 !! self = None ->
  outcome (BroadcastRandomNumber epoch registryKeys st) = Done tt /\
  sends (BroadcastRandomNumber epoch registryKeys st)
  = [EvBroadcast MsgRandomNumber
       (PRandomNumber (mkRandomNumberMsg epoch 0 0 (PublicKey (NodeKeyPair n))))] /\
  epochCell (EpochRandoms (node (final (BroadcastRandomNumber epoch registryKeys st))))
    epoch self
  = Some (mkSecretValues 0 0).
Proof.
  intros n self Hnone. subst n self.
  pose proof (BroadcastRandomNumber_run epoch registryKeys st) as Hrun.
  cbn zeta in Hrun. rewrite Hrun. rewrite Hnone.
  cbn [default SecretValues_zero SecretValue RandomValue outcome final node].
  split; [done|]. split; [done|]. apply epochCell_upsert_eq.
Qed.

(** X6.  The stored RandomNumber bytes play no part in the contribution:
    BroadcastRandomNumber logs the same effects and leaves the same table
    whatever the field holds, and keeps the field; GenerateRandomNumber,
    whether it returns or panics, changes no other field of the node. *)
Theorem RandomNumber_field_unused epoch (registryKeys : list bytes)
    (b : bytes) (st : State) :
  let st_b := mkState (set_RandomNumber b (node st)) (extst st) in
  effects (BroadcastRandomNumber epoch registryKeys st_b)
  = effects (BroadcastRandomNumber epoch registryKeys st) /\
  EpochRandoms (node (final (BroadcastRandomNumber epoch registryKeys st_b)))
  = EpochRandoms (node (final (BroadcastRandomNumber epoch registryKeys st))) /\
  RandomNumber (node (final (BroadcastRandomNumber epoch registryKeys st_b))) = b /\
  node (final (GenerateRandomNumber st))
  = set_RandomNumber (RandomNumber (node (final (GenerateRandomNumber st)))) (node st).
Proof.
  intros st_b. subst st_b.
  pose proof (BroadcastRandomNumber_run epoch registryKeys) as Hrun.
  cbn zeta in Hrun. rewrite !Hrun.
  split; [done|]. split; [done|]. split; [done|].
  unfold GenerateRandomNumber, defer, callExt, bind.
  cbn [outcome final events emit node extst fst snd].
  destruct (rand_Read 32 (extst st)).1.2; cbn; by destruct st as [[] ?].
Qed.

(** ** Locks *)

(** X7.  Every method of node.go that takes a mutex gives it back, also
    when GenerateRandomNumber panics, and none locks a mutex it holds.
    BroadcastRandomNumber sends with no mutex held; DNSRequestHandler
    sends its reply while it holds TxMutex. *)
Theorem lock_discipline epoch sender s r (registryKeys : list bytes)
    (req : BDNSRequest) (reqSender : string) (st : State) :
  locksHeld [] (effects (RandomNumberHandler epoch sender s r st)) = Some [] /\
  locksHeld [] (effects (GenerateRandomNumber st)) = Some [] /\
  locksHeld [] (effects (DNSRequestHandler req reqSender st)) = Some [] /\
  locksHeld [] (effects (BroadcastRandomNumber epoch registryKeys st)) = Some [] /\
  Forall (fun e_held => e_held.2 = [])
    (sendsUnderLock [] (effects (BroadcastRandomNumber epoch registryKeys st))) /\
  Forall (fun e_held => e_held.2 = [TxMutex])
    (sendsUnderLock [] (effects (DNSRequestHandler req reqSender st))) /\
  length (sendsUnderLock [] (effects (DNSRequestHandler req reqSender st)))
  = length (sends (DNSRequestHandler req reqSender st)).
Proof.
  pose proof (BroadcastRandomNumber_run epoch registryKeys st) as Hrun.
  cbn zeta in Hrun. rewrite Hrun.
  pose proof (DNSRequestHandler_run req reqSender st) as Hreq.
  cbn zeta in Hreq. rewrite Hreq.
  rewrite RandomNumberHandler_run.
  split; [done|]. split.
  { unfold GenerateRandomNumber, defer, callExt, bind.
    cbn [outcome final events emit node extst fst snd].
    by destruct (rand_Read 32 (extst st)).1.2. }
  split; [by destruct (GetIP (IndexManager (node st)) (req_DomainName req))|].
  split; [done|]. split; [by repeat constructor|].
  destruct (GetIP (IndexManager (node st)) (req_DomainName req));
    split; by repeat constructor.
Qed.

(** ** The loop and the stream callback *)

(** X8.  Envelopes of a type without a case in the switch (DNSResponse and
    every unknown type) are skipped without a trace: the loop gives the
    same result, state and effects as on the channel without them. *)
Theorem HandleGossip_skips_unhandled (chan : list GossipMessage) (st : State) :
  HandleGossip chan st
  = HandleGossip (List.filter (fun msg => handled (msg_Type msg)) chan) st.
Proof.
  assert (forall s, HandleGossip_loop chan s
                    = HandleGossip_loop
                        (List.filter (fun msg => handled (msg_Type msg)) chan) s) as Hloop.
  { induction chan as [|msg rest IH]; intros s; [done|].
    cbn [List.filter HandleGossip_loop].
    destruct (handled (msg_Type msg)) eqn:Hh.
    - cbn [HandleGossip_loop]. apply bind_ext. intros _ s'. apply IH.
    - assert (HandleGossip_body msg = ret tt) as ->.
      { unfold HandleGossip_body. by destruct (msg_Type msg). }
      rewrite bind_ret_l. apply IH. }
  unfold HandleGossip, bind. by rewrite Hloop.
Qed.

(** X9.  The callback for "/dns-response", on any stream whatever: it
    returns, leaves the state as it was, sends nothing, and closes the
    stream exactly once, as its last effect, after effects that only log
    or print.  When the envelope itself does not decode, it logs the error
    and closes.  No other protocol id has a callback. *)
Theorem dnsResponseStream_safe (s : bytes) (st : State) :
  outcome (dnsResponseStream s st) = Done tt /\
  final (dnsResponseStream s st) = st /\
  sends (dnsResponseStream s st) = [] /\
  (exists pre,
     effects (dnsResponseStream s st) = pre ++ [EvStreamClose] /\
     forallb is_print pre = true) /\
  (forall err,
     (json_Decode_GossipMessage s).2 = Some err ->
     effects (dnsResponseStream s st)
     = [EvLog (fmt_Sprintln ["Error decoding direct response:"; err]); EvStreamClose]) /\
  (forall proto h,
     streamHandler ListenForDirectMessages proto = Some h ->
     proto = "/dns-response" /\ h = dnsResponseStream).
Proof.
  unfold dnsResponseStream.
  assert (forall proto h,
            streamHandler ListenForDirectMessages proto = Some h ->
            proto = "/dns-response" /\ h = dnsResponseStream) as Htable.
  { intros proto h. cbn [ListenForDirectMessages streamHandler].
    destruct (String.eqb "/dns-response" proto) eqn:E; [|done].
    apply String.eqb_eq in E. intros [= <-]. by split. }
  destruct (json_Decode_GossipMessage s).2 as [err|] eqn:Hdec.
  - split; [done|]. split; [done|]. split; [done|]. split; [|split].
    + by exists [EvLog (fmt_Sprintln ["Error decoding direct response:"; err])].
    + by intros err' [= <-].
    + exact Htable.
  - destruct (negb (MessageType_eqb (msg_Type (json_Decode_GossipMessage s).1) DNSResponse)).
    + split; [done|]. split; [done|]. split; [done|]. split; [|split].
      * by exists [EvLog (fmt_Sprintln ["Invalid message type received"])].
      * done.
      * exact Htable.
    + destruct (json_Unmarshal_BDNSResponse
                  (msg_Content (json_Decode_GossipMessage s).1)).2 eqn:Hres.
      * split; [done|]. split; [done|]. split; [done|]. split; [|split].
        -- exists (EvLog (fmt_Sprintln ["Failed during unmarshalling"])
                   :: effects (DNSResponseHandler
                                 (json_Unmarshal_BDNSResponse
                                    (msg_Content (json_Decode_GossipMessage s).1)).1 st)).
           split; reflexivity.
        -- done.
        -- exact Htable.
      * split; [done|]. split; [done|]. split; [done|]. split; [|split].
        -- exists (effects (DNSResponseHandler
                              (json_Unmarshal_BDNSResponse
                                 (msg_Content (json_Decode_GossipMessage s).1)).1 st)).
           split; reflexivity.
        -- done.
        -- exact Htable.
Qed.

Lemma HandleGossip_body_dns (msg : GossipMessage) (st : State) :
  msg_Type msg = DNSRequest ->
  final (HandleGossip_body msg st) = st /\
  sends (HandleGossip_body msg st)
  = match dnsReply (node st) msg with Some e => [e] | None => [] end.
Proof.
  intros Hty. unfold HandleGossip_body, dnsReply. rewrite Hty.
  pose proof (DNSRequestHandler_run
                (json_Unmarshal_BDNSRequest (msg_Content msg)).1 (msg_Sender msg) st)
    as Hrun.
  cbn zeta in Hrun.
  destruct (json_Unmarshal_BDNSRequest (msg_Content msg)).2;
    rewrite (bind_Done _ _ _ tt) by reflexivity;
    cbn [log_Println emit ret final events]; rewrite Hrun;
    (split; [reflexivity|]);
    by destruct (GetIP (IndexManager (node st))
                   (req_DomainName (json_Unmarshal_BDNSRequest (msg_Content msg)).1)).
Qed.

(** X11.  A channel that carries only DNSRequest envelopes: the loop
    leaves the state as it was, and what it sends is, in order of arrival,
    one direct reply for each envelope whose domain is in the index,
    addressed to the sender of that envelope, and nothing else. *)
Theorem HandleGossip_dns_traffic (chan : list GossipMessage) (st : State) :
  Forall (fun msg => msg_Type msg = DNSRequest) chan ->
  final (HandleGossip chan st) = st /\
  sends (HandleGossip chan st) = omap (dnsReply (node st)) chan.
Proof.
  intros Hall.
  assert (final (HandleGossip_loop chan st) = st
          /\ sends (HandleGossip_loop chan st) = omap (dnsReply (node st)) chan)
    as [Hf Hs].
  { induction Hall as [|msg rest Hty Hrest IH]; [done|].
    destruct (HandleGossip_body_dns msg st Hty) as [Hbf Hbs].
    destruct (HandleGossip_loop_continues msg rest st) as [Hfin Heff].
    rewrite Hbf in Hfin, Heff. destruct IH as [IHf IHs]. split.
    - by rewrite Hfin.
    - unfold sends in *. rewrite Heff, List.filter_app, Hbs, IHs.
      cbn [omap list_omap]. by destruct (dnsReply (node st) msg). }
  unfold HandleGossip.
  rewrite (bind_Done _ _ _ _ (HandleGossip_loop_returns chan st)).
  cbn [final getNode fmt_Println emit bind outcome events].
  split; [exact Hf|].
  unfold sends, effects in *. cbn [events]. rewrite map_app, List.filter_app, Hs.
  cbn. apply app_nil_r.
Qed.

(** X10.  A query answered end to end.  The requester broadcasts one
    DNSRequest; a responder that holds a record for the domain answers
    with one direct message to the sender of the envelope; the requester's
    callback, given that answer, prints the domain name and the IP of the
    stored record.  None of the three steps changes the state of its node. *)
Theorem dns_round_trip (domain : string) (tx : Transaction)
    (responder requester : State) (query reply : GossipMessage) (s : bytes) :
  let res := mkBDNSResponse (tx_Timestamp tx) (tx_DomainName tx) (tx_IP tx)
               (tx_TTL tx) (tx_OwnerKey tx) (tx_Signature tx) in
  GetIP (IndexManager (node responder)) domain = Some tx ->
  msg_Type query = DNSRequest ->
  json_Unmarshal_BDNSRequest (msg_Content query) = (mkBDNSRequest domain, None) ->
  json_Decode_GossipMessage s = (reply, None) ->
  msg_Type reply = DNSResponse ->
  json_Unmarshal_BDNSResponse (msg_Content reply) = (res, None) ->
  (effects (MakeDNSRequest domain requester)
   = [EvBroadcast DNSRequest (PRequest (mkBDNSRequest domain))] /\
   final (MakeDNSRequest domain requester) = requester) /\
  (sends (HandleGossip_body query responder)
   = [EvDirect DNSResponse (PResponse res) (msg_Sender query)] /\
   final (HandleGossip_body query responder) = responder) /\
  (effects (dnsResponseStream s requester)
   = [EvStdout (fmt_Sprintln ["DNS Response received at "; Address (node requester);
                              " -> "; tx_DomainName tx; " IP:"; tx_IP tx]);
      EvStreamClose] /\
   final (dnsResponseStream s requester) = requester).
Proof.
  intros res Hrec Hq Hqdec Hs Hr Hrdec. split; [|split].
  - split; [reflexivity|by destruct requester].
  - unfold HandleGossip_body. rewrite Hq, Hqdec. cbn [fst snd].
    rewrite (bind_Done _ _ _ tt) by reflexivity.
    pose proof (DNSRequestHandler_run (mkBDNSRequest domain) (msg_Sender query) responder)
      as Hrun.
    cbn zeta in Hrun. cbn [ret final]. rewrite Hrun.
    cbn [req_DomainName]. rewrite Hrec. split; [reflexivity|done].
  - unfold dnsResponseStream. rewrite Hs. cbn [fst snd]. rewrite Hr, Hrdec.
    cbn [MessageType_eqb negb fst snd]. split; [reflexivity|by destruct requester].
Qed.

End Extras.

(** * The properties on concrete runs

    Node A of scenario 1 with the sample collaborators. *)

Import Sample.

Ltac not_in_list H :=
  repeat (apply elem_of_cons in H as [H|H]; [discriminate H|]);
  by apply elem_of_nil in H.

(** A Transaction envelope with an empty content: the failure is logged,
    and the zero transaction is added to the pool and forwarded to the
    ledger. *)
Lemma decode_failure_still_dispatches_witness :
  effects (HandleGossip_body badTransaction start)
  = [EvLog (fmt_Sprintln ["Failed during unmarshalling"]);
     EvLock TxMutex;
     EvLedgerAddTransaction zeroTransaction;
     EvUnlock TxMutex] /\
  TransactionPool (node (final (HandleGossip_body badTransaction start))) !! 0
  = Some zeroTransaction.
Proof.
  destruct (decode_failure_still_dispatches badTransaction notObject start)
    as (_ & Htx & _).
  destruct (Htx eq_refl eq_refl) as [He Hf].
  split.
  - rewrite He. reflexivity.
  - rewrite Hf. vm_compute. reflexivity.
Defined.

Lemma RandomNumberHandler_upsert_idempotent_witness :
  let msg := mkGossipMessage MsgRandomNumber [x7b; x07; x03; x04; x0b; x10] "peer-B" in
  epochCell (EpochRandoms (node (final (RandomNumberHandler 7 "0b10" 3 4 startNil))))
    7 "0b10" = Some (mkSecretValues 3 4) /\
  epochCell (EpochRandoms (node (final (HandleGossip_body msg start)))) 7 "0b10"
  = Some (mkSecretValues 3 4) /\
  final (HandleGossip_body msg (final (HandleGossip_body msg start)))
  = final (HandleGossip_body msg start).
Proof.
  intros msg.
  destruct (RandomNumberHandler_upsert_idempotent 7 "0b10" 3 4 startNil)
    as [(_ & Hcell & _) _].
  destruct (RandomNumberHandler_upsert_idempotent 7 "0b10" 3 4 start)
    as [_ [Hgossip _]].
  destruct (Hgossip msg (mkRandomNumberMsg 7 3 4 keyB) eq_refl eq_refl) as [Hc Hi].
  split; [exact Hcell|]. split; [exact Hc|exact Hi].
Defined.

Lemma RandomNumberHandler_frame_witness :
  let st1 := final (RandomNumberHandler 7 "0aff" 1 2 start) in
  epochCell (EpochRandoms (node (final (RandomNumberHandler 7 "0b10" 3 4 st1)))) 7 "0aff"
  = Some (mkSecretValues 1 2).
Proof.
  intros st1.
  destruct (RandomNumberHandler_frame 7 "0b10" 3 4 st1) as [Hother _].
  rewrite (Hother 7 "0aff"); [vm_compute; reflexivity|].
  intros H. discriminate H.
Defined.

(** Scenario 3: three participants, epoch 7, two orders of arrival. *)
Lemma contributions_order_irrelevant_witness :
  final (applyContributions threeContributions start)
  = final (applyContributions threeContributionsShuffled start) /\
  default ∅ (epochRow (EpochRandoms (node (final (applyContributions threeContributions start)))) 7)
  = contributionRow threeContributions /\
  size (contributionRow threeContributions) = 3%nat.
Proof.
  assert (Forall (fun m => rn_Epoch m = 7) threeContributions) as He
    by (repeat constructor).
  assert (NoDup (rn_Sender <$> threeContributions)) as Hnd.
  { repeat (apply NoDup_cons; split; [intros H; not_in_list H|]). apply NoDup_nil_2. }
  assert (threeContributions ≡ₚ threeContributionsShuffled) as Hp.
  { unfold threeContributions, threeContributionsShuffled.
    etransitivity; [apply perm_skip, perm_swap|apply perm_swap]. }
  destruct (contributions_order_irrelevant 7 _ _ start He Hnd Hp)
    as (_ & _ & Heq & _ & _ & Hrow).
  destruct (Hrow eq_refl) as [Hr Hs].
  split; [exact Heq|]. split; [exact Hr|exact Hs].
Defined.

(** Scenarios 1 and 2: a query for a stored domain and for an unknown one. *)
Lemma DNSRequestHandler_reply_witness :
  sends (DNSRequestHandler (mkBDNSRequest "example.bdns") "peer-B" start)
  = [EvDirect DNSResponse
       (PResponse (mkBDNSResponse 1700000000 "example.bdns" "10.0.0.1" 3600 keyA [x01; x02]))
       "peer-B"] /\
  sends (DNSRequestHandler (mkBDNSRequest "nowhere.bdns") "peer-B" start) = [].
Proof.
  split.
  - destruct (DNSRequestHandler_reply (mkBDNSRequest "example.bdns") "peer-B" start)
      as (_ & Hsome & _).
    apply (Hsome record). vm_compute. reflexivity.
  - destruct (DNSRequestHandler_reply (mkBDNSRequest "nowhere.bdns") "peer-B" start)
      as (Hnone & _).
    apply Hnone. vm_compute. reflexivity.
Defined.

Lemma dnsResponseStream_type_check_witness :
  effects (dnsResponseStream [x7b; x02; x03] start)
  = [EvLog (fmt_Sprintln ["Invalid message type received"]); EvStreamClose] /\
  effects (dnsResponseStream [x7b; x01; x7b; x03; x61] start)
  = effects (DNSResponseHandler (mkBDNSResponse 0 "a" "10.0.0.1" 3 [] []) start)
    ++ [EvStreamClose].
Proof.
  split.
  - destruct (dnsResponseStream_type_check [x7b; x02; x03]
                (mkGossipMessage MsgTransaction [x03] "peer-B") start eq_refl)
      as (_ & Hwrong & _).
    apply Hwrong. intros H. discriminate H.
  - destruct (dnsResponseStream_type_check [x7b; x01; x7b; x03; x61]
                (mkGossipMessage DNSResponse [x7b; x03; x61] "peer-B") start eq_refl)
      as (_ & _ & Hright).
    apply (Hright eq_refl).
Defined.

Lemma GenerateRandomNumber_fatal_or_32_witness :
  outcome (GenerateRandomNumber startNoEntropy)
  = Panicked "Failed to generate random number:entropy source unavailable" /\
  RandomNumber (node (final (GenerateRandomNumber startNoEntropy))) = [] /\
  exists randomBytes,
    outcome (GenerateRandomNumber start) = Done randomBytes /\
    RandomNumber (node (final (GenerateRandomNumber start))) = randomBytes /\
    length randomBytes = 32%nat.
Proof.
  destruct (GenerateRandomNumber_fatal_or_32 startNoEntropy) as [Hfail _].
  destruct (Hfail "entropy source unavailable" eq_refl) as (Hp & _ & Hn).
  destruct (GenerateRandomNumber_fatal_or_32 start) as [_ Hok].
  destruct (Hok eq_refl) as (randomBytes & Ho & Hs & Hl & _).
  split; [exact Hp|]. split; [rewrite Hn; reflexivity|].
  exists randomBytes. split; [exact Ho|]. split; [exact Hs|exact Hl].
Defined.

(** Scenario 4 on the code: after an undecodable Transaction envelope the
    loop does process the next, valid one; the pool then holds two
    entries, the zero transaction under index 0 and the valid one under
    index 1. *)
Example HandleGossip_bad_then_good :
  let r := HandleGossip [badTransaction; goodTransaction] start in
  outcome r = Done tt /\
  TransactionPool (node (final r)) !! 0 = Some zeroTransaction /\
  TransactionPool (node (final r)) !! 1
  = Some (mkTransaction 0 "example.bdns" "10.0.0.1" 60 [] []) /\
  size (TransactionPool (node (final r))) = 2%nat.
Proof. vm_compute. repeat split; reflexivity. Qed.

(** ** The further properties on concrete runs *)

Import Cases.

Lemma RandomNumberHandler_grows_witness :
  let st1 := final (RandomNumberHandler 7 "0aff" 1 2 start) in
  is_Some (epochCell
             (EpochRandoms (node (final (RandomNumberHandler 7 "0b10" 3 4 st1))))
             7 "0aff") /\
  size (default ∅ (epochRow
                     (EpochRandoms (node (final (RandomNumberHandler 7 "0b10" 3 4 st1))))
                     7)) = 2%nat.
Proof.
  intros st1.
  destruct (RandomNumberHandler_grows 7 "0b10" 3 4 st1) as (_ & Hkeep & _ & Hsize).
  split.
  - apply Hkeep. vm_compute. by eexists.
  - rewrite Hsize. vm_compute. reflexivity.
Defined.

(** Two contributions and an undecodable envelope between them. *)
Lemma HandleGossip_random_traffic_witness :
  let after := final (HandleGossip randomTraffic start) in
  epochCell (EpochRandoms (node after)) 7 "0b10" = Some (mkSecretValues 3 4) /\
  epochCell (EpochRandoms (node after)) 7 "c001" = Some (mkSecretValues 5 6) /\
  size (default ∅ (epochRow (EpochRandoms (node after)) 7)) = 2%nat /\
  sends (HandleGossip randomTraffic start) = [].
Proof.
  intros after. subst after.
  assert (Forall (fun msg => msg_Type msg = MsgRandomNumber) randomTraffic) as Hall
    by (repeat constructor).
  destruct (HandleGossip_random_traffic randomTraffic start Hall) as [Hf Hs].
  rewrite Hf. split; [vm_compute; reflexivity|].
  split; [vm_compute; reflexivity|]. split; [vm_compute; reflexivity|exact Hs].
Defined.

(** Node A broadcasts for epoch 7; the message comes back to A and reaches
    node B. *)
Lemma broadcast_echo_and_peer_agree_witness :
  let env := mkGossipMessage MsgRandomNumber [x7b; x07; x0b; x16; x0a; xff] "peer-A" in
  let after := final (BroadcastRandomNumber 7 [] start) in
  final (HandleGossip_body env after) = after /\
  epochCell (EpochRandoms (node (final (HandleGossip_body env requester)))) 7 "0aff"
  = Some (mkSecretValues 11 22).
Proof.
  intros env after.
  destruct (broadcast_echo_and_peer_agree 7 [] start requester
              (mkRandomNumberMsg 7 11 22 keyA) env eq_refl eq_refl eq_refl)
    as (Hecho & Hpeer & _).
  split; [exact Hecho|]. etransitivity; [exact Hpeer|]. vm_compute. reflexivity.
Defined.

Lemma BroadcastRandomNumber_unregistered_zero_witness :
  sends (BroadcastRandomNumber 7 [] startOutsider)
  = [EvBroadcast MsgRandomNumber (PRandomNumber (mkRandomNumberMsg 7 0 0 keyD))] /\
  epochCell (EpochRandoms (node (final (BroadcastRandomNumber 7 [] startOutsider)))) 7 "ee"
  = Some (mkSecretValues 0 0).
Proof.
  assert ((consensus_CommitmentPhase (RegistryKeys (node startOutsider))
             (extst startOutsider)).1
          !! hex_EncodeToString (PublicKey (NodeKeyPair (node startOutsider))) = None)
    as Hnone by (vm_compute; reflexivity).
  destruct (BroadcastRandomNumber_unregistered_zero 7 [] startOutsider Hnone)
    as (_ & Hsend & Hcell).
  split; [exact Hsend|exact Hcell].
Defined.

(** A stream that does not carry an envelope. *)
Lemma dnsResponseStream_safe_witness :
  effects (dnsResponseStream [x22; x78; x22] start)
  = [EvLog (fmt_Sprintln ["Error decoding direct response:"; notObject]);
     EvStreamClose] /\
  final (dnsResponseStream [x22; x78; x22] start) = start.
Proof.
  destruct (dnsResponseStream_safe [x22; x78; x22] start)
    as (_ & Hfinal & _ & _ & Herr & _).
  split; [exact (Herr notObject eq_refl)|exact Hfinal].
Defined.

(** Scenario 1 with the record the sample codec can carry. *)
Lemma dns_round_trip_witness :
  let query := mkGossipMessage DNSRequest [x7b; x61] "peer-B" in
  sends (HandleGossip_body query responder)
  = [EvDirect DNSResponse (PResponse (mkBDNSResponse 0 "a" "10.0.0.1" 3 [] []))
       "peer-B"] /\
  effects (dnsResponseStream [x7b; x01; x7b; x03; x61] requester)
  = [EvStdout (fmt_Sprintln ["DNS Response received at "; "/ip4/127.0.0.1/tcp/4002";
                             " -> "; "a"; " IP:"; "10.0.0.1"]);
     EvStreamClose].
Proof.
  intros query.
  destruct (dns_round_trip "a" plainRecord responder requester query
              (mkGossipMessage DNSResponse [x7b; x03; x61] "peer-B")
              [x7b; x01; x7b; x03; x61]
              eq_refl eq_refl eq_refl eq_refl eq_refl eq_refl)
    as (_ & [Hsend _] & [Hprint _]).
  split; [exact Hsend|exact Hprint].
Defined.

(** Three queries at node A: the first and the third are answered. *)
Lemma HandleGossip_dns_traffic_witness :
  let answer :=
    PResponse (mkBDNSResponse 1700000000 "example.bdns" "10.0.0.1" 3600 keyA [x01; x02]) in
  sends (HandleGossip queries start)
  = [EvDirect DNSResponse answer "peer-B"; EvDirect DNSResponse answer "peer-D"] /\
  final (HandleGossip queries start) = start.
Proof.
  intros answer.
  assert (Forall (fun msg => msg_Type msg = DNSRequest) queries) as Hall
    by (repeat constructor).
  destruct (HandleGossip_dns_traffic queries start Hall) as [Hf Hs].
  split; [|exact Hf]. rewrite Hs. vm_compute. reflexivity.
Defined.
